(** * Dataset splitting ([ludwig/data/split.py]): a shallow embedding

    The development follows the source file top to bottom: Python values and
    exceptions, the dataframe the splitters work on, the process state that a
    call can change (the caller's dataframe object, the random number
    generator, the warnings emitted), the backend interface, the four
    splitters, the registry with [get_splitter], and [split_dataset].

    Modelling conventions.
    - A Python call either returns or raises: [outcome].  A call that can also
      change the process state is a [Py] computation (state passing, the
      state surviving a raise).
    - A Python float is a binary64 number, modelled by the rational it
      denotes ([Q]); arithmetic on floats rounds the exact result to the
      nearest float ([round_double]); [int(x)] truncates toward zero.
    - A dataframe is an ordered list of rows, each with its index label and
      its cells, plus the set of column names. *)

From Stdlib Require Import QArith Qround Qpower Qabs Lqa.
From stdpp Require Import gmap strings list pretty.

Open Scope Z_scope.

(** ** Python values and exceptions *)

(** Cell contents: [None], integers and strings, or a flat list of them (the
    component list a preprocessed date is stored as). *)
Inductive scalar : Type :=
  | SNone
  | SInt (z : Z)
  | SStr (s : string).

Inductive value : Type :=
  | VScalar (a : scalar)
  | VList (l : list scalar).

Global Instance scalar_eq_dec : EqDecision scalar.
Proof. solve_decision. Defined.

Global Instance value_eq_dec : EqDecision value.
Proof. solve_decision. Defined.

Inductive exn : Type :=
  | ValueError (msg : string)
  | AttributeError (msg : string)
  | KeyError (msg : string)
  | IndexError (msg : string)
  | TypeError (msg : string).

Inductive outcome (A : Type) : Type :=
  | Returned (a : A)
  | Raised (e : exn).
Arguments Returned {A} a.
Arguments Raised {A} e.

Global Instance outcome_ret : MRet outcome := λ A, Returned.
Global Instance outcome_bind : MBind outcome := λ A B f m,
  match m with
  | Returned a => f a
  | Raised e => Raised e
  end.

(** The double quote character, for messages that contain it. *)
Definition dq : string := String (Ascii.ascii_of_nat 34) EmptyString.

(** [str(x)] on a scalar, as an f-string field renders it. *)
Definition py_str (a : scalar) : string :=
  match a with
  | SNone => "None"
  | SInt z => pretty z
  | SStr s => s
  end.

(** [isinstance(x, list)]. *)
Definition isinstance_list (x : value) : bool :=
  match x with
  | VList _ => true
  | VScalar _ => false
  end.

(** [len(x)]: defined on lists and strings, [TypeError] otherwise. *)
Definition py_len (x : value) : outcome Z :=
  match x with
  | VList l => Returned (Z.of_nat (length l))
  | VScalar (SStr s) => Returned (Z.of_nat (String.length s))
  | VScalar SNone => Raised (TypeError "object of type 'NoneType' has no len()")
  | VScalar (SInt _) => Raised (TypeError "object of type 'int' has no len()")
  end.

(** [x[i]] for a constant non-negative [i]: an element of a list, a
    one-character string of a string. *)
Definition py_getitem (x : value) (i : nat) : outcome scalar :=
  match x with
  | VList l =>
      match l !! i with
      | Some a => Returned a
      | None => Raised (IndexError "list index out of range")
      end
  | VScalar (SStr s) =>
      match String.get i s with
      | Some c => Returned (SStr (String c EmptyString))
      | None => Raised (IndexError "string index out of range")
      end
  | VScalar SNone => Raised (TypeError "'NoneType' object is not subscriptable")
  | VScalar (SInt _) => Raised (TypeError "'int' object is not subscriptable")
  end.

(** *** Floats

    A Python float is an IEEE 754 binary64 number.  A finite float is
    modelled by the rational number it denotes, and an operation on floats by
    the exact operation followed by [round_double]: rounding to 53
    significant bits, to nearest, ties to the even significand.  The exponent
    range of binary64 is left out (no infinity, no loss of precision among
    subnormal numbers): the operations of this file multiply a probability by
    a row count. *)

(** The integer nearest to [x], ties to the even one. *)
Definition round_half_even (x : Q) : Z :=
  let f := Qfloor x in
  match (x - inject_Z f ?= 1 # 2)%Q with
  | Lt => f
  | Gt => f + 1
  | Eq => if Z.even f then f else f + 1
  end.

(** For [x > 0], the exponent [e] with [2^e <= x < 2^(e+1)]: the difference
    of the bit lengths of numerator and denominator gives it up to one. *)
Definition binade (x : Q) : Z :=
  let e := Z.log2 (Qnum x) - Z.log2 (Z.pos (Qden x)) in
  if Qle_bool (2 ^ e) x then e else e - 1.

(** The float nearest to [x]: [x] is scaled to a significand in
    [2^52, 2^53), the significand rounded to an integer, and scaled back. *)
Definition round_double (x : Q) : Q :=
  if Qeq_bool x 0 then 0%Q
  else
    let s := 52 - binade (Qabs x) in
    (inject_Z (round_half_even (x * 2 ^ s)) * 2 ^ (- s))%Q.

(** The float that a decimal literal such as [0.7] denotes. *)
Definition double (q : Q) : Q := round_double q.

(** [float(n)], the conversion that [x * n] applies to an integer operand. *)
Definition float_of_int (n : Z) : Q := round_double (inject_Z n).

(** [x * y] on floats. *)
Definition float_mul (x y : Q) : Q := round_double (x * y).

(** [int(x)] for a float [x]: truncation toward zero. *)
Definition py_int (x : Q) : Z := Z.quot (Qnum x) (Z.pos (Qden x)).

(** [seq[i]] on a Python sequence with a possibly negative index. *)
Definition py_index {A : Type} (l : list A) (i : Z) : outcome A :=
  let n := Z.of_nat (length l) in
  let j := if i <? 0 then i + n else i in
  if (0 <=? j) && (j <? n) then
    match l !! Z.to_nat j with
    | Some a => Returned a
    | None => Raised (IndexError "index out of range")
    end
  else Raised (IndexError "index out of range").

(** [l[start:stop]]: Python slicing, negative bounds counted from the end and
    both bounds clamped to the sequence. *)
Definition py_clamp (n i : Z) : Z :=
  if i <? 0 then Z.max (i + n) 0 else Z.min i n.

Definition py_slice {A : Type} (l : list A) (start stop : Z) : list A :=
  let n := Z.of_nat (length l) in
  let a := py_clamp n start in
  let b := py_clamp n stop in
  take (Z.to_nat (b - a)) (drop (Z.to_nat a) l).

(** ** Dataframes *)

Record Row : Type := mkRow {
  row_label : Z;
  row_cells : gmap string value;
}.

Record DataFrame : Type := mkDataFrame {
  df_columns : gset string;
  df_rows : list Row;
}.

(** Every row has a cell for each column and for nothing else. *)
Definition wf_df (df : DataFrame) : Prop :=
  ∀ r, r ∈ df_rows df → dom (row_cells r) = df_columns df.

(** [len(df)]. *)
Definition len (df : DataFrame) : nat := length (df_rows df).

(** [name in df]: membership among the column names. *)
Definition contains (df : DataFrame) (name : string) : bool :=
  bool_decide (name ∈ df_columns df).

(** [df.index]. *)
Definition index (df : DataFrame) : list Z := row_label <$> df_rows df.

Definition cell (name : string) (r : Row) : value :=
  default (VScalar SNone) (row_cells r !! name).

(** [df[name]]: the column as a positional series. *)
Definition df_getitem (df : DataFrame) (name : string) : outcome (list value) :=
  if contains df name then Returned (cell name <$> df_rows df)
  else Raised (KeyError name).

Definition set_cell (name : string) (r : Row) (v : value) : Row :=
  mkRow (row_label r) (<[name := v]> (row_cells r)).

(** [df[name] = series]: adds or replaces a column, position by position. *)
Definition df_setitem (df : DataFrame) (name : string) (series : list value)
  : outcome DataFrame :=
  if decide (length series = len df) then
    Returned (mkDataFrame ({[name]} ∪ df_columns df)
                          (zip_with (set_cell name) (df_rows df) series))
  else Raised (ValueError "Length of values does not match length of index").

Definition drop_cell (name : string) (r : Row) : Row :=
  mkRow (row_label r) (delete name (row_cells r)).

(** [df.drop(columns=name)]: a new frame without the column. *)
Definition df_drop (df : DataFrame) (name : string) : outcome DataFrame :=
  if contains df name then
    Returned (mkDataFrame (df_columns df ∖ {[name]}) (drop_cell name <$> df_rows df))
  else Raised (KeyError name).

(** Positional row slice [df[start:stop]]. *)
Definition df_slice (df : DataFrame) (start stop : Z) : DataFrame :=
  mkDataFrame (df_columns df) (py_slice (df_rows df) start stop).

(** The three folds a splitter returns: train, validation, test, each a frame
    or [None]. *)
Definition Folds : Type := option DataFrame * option DataFrame * option DataFrame.

Definition fold_rows (f : option DataFrame) : list Row :=
  match f with
  | Some d => df_rows d
  | None => []
  end.

(** [np.split(df, [d1, d2])]: the row slices [0:d1], [d1:d2], [d2:n]. *)
Definition np_split (df : DataFrame) (d1 d2 : Z) : Folds :=
  (Some (df_slice df 0 d1),
   Some (df_slice df d1 d2),
   Some (df_slice df d2 (Z.of_nat (len df)))).

(** ** Process state and the [Py] monad *)

(** The process-wide random number generator: the seed it was last given and
    how many draws it has served since. *)
Record RngState : Type := mkRng {
  rng_seed : Z;
  rng_consumed : nat;
}.

(** What a call to [split] can change: the dataframe object the caller passed
    in (every [df[...] = ...] in the callee writes to this one object), the
    random number generator, and the warnings emitted so far. *)
Record World : Type := mkWorld {
  w_df : DataFrame;
  w_rng : RngState;
  w_warnings : list string;
}.

Definition Py (A : Type) : Type := World → outcome A * World.

Global Instance Py_ret : MRet Py := λ A a w, (Returned a, w).
Global Instance Py_bind : MBind Py := λ A B f m w,
  match m w with
  | (Returned a, w') => f a w'
  | (Raised e, w') => (Raised e, w')
  end.

Definition lift {A : Type} (o : outcome A) : Py A := λ w, (o, w).

Definition get_df : Py DataFrame := λ w, (Returned (w_df w), w).

Definition put_df (df : DataFrame) : Py unit :=
  λ w, (Returned (), mkWorld df (w_rng w) (w_warnings w)).

Definition get_rng : Py RngState := λ w, (Returned (w_rng w), w).

Definition put_rng (g : RngState) : Py unit :=
  λ w, (Returned (), mkWorld (w_df w) g (w_warnings w)).

(** [set_random_seed(seed)]. *)
Definition set_random_seed (seed : Z) : Py unit := put_rng (mkRng seed 0).

(** [warnings.warn(msg)]: recorded, execution goes on. *)
Definition warn (msg : string) : Py unit :=
  λ w, (Returned (), mkWorld (w_df w) (w_rng w) (w_warnings w ++ [msg])).

(** [df[name] = series] on the caller's dataframe object. *)
Definition setitem (name : string) (series : list value) : Py unit :=
  df ← get_df;
  df' ← lift (df_setitem df name series);
  put_df df'.

(** ** The backend interface

    What [split.py] uses of [backend.df_engine] and of the dataframe library
    behind it.  The engines live outside this file, so they are a record of
    operations. *)
Record Backend : Type := mkBackend {
  (** [backend.df_engine.partitioned] *)
  partitioned : bool;
  (** [backend.df_engine.map_objects(series, fn)] *)
  map_objects : list value → (value → outcome value) → outcome (list value);
  (** [backend.df_engine.db_lib.to_datetime(series).values.astype("int64")] *)
  to_datetime : list value → outcome (list Z);
  (** [backend.df_engine.split(df, probabilities)] *)
  df_engine_split : DataFrame → list Q → outcome Folds;
  (** [backend.df_engine.array_lib.random.choice(k, size, p=probabilities)];
      numpy checks [p] first and raises [ValueError] when it does not accept
      it (wrong length, a negative entry, a sum away from 1) *)
  random_choice : RngState → nat → nat → list Q → outcome (list Z);
  (** [df.random_split(probabilities, random_state=seed)] of a partitioned frame *)
  random_split : DataFrame → list Q → Z → Folds;
  (** [df.sample(frac=1, random_state=seed)] *)
  sample : DataFrame → Z → DataFrame;
  (** [df.sort_values(name)] *)
  sort_values : DataFrame → string → outcome DataFrame;
}.

(** What the dataframe and array libraries guarantee of these operations: a
    full-fraction sample is a reordering of the rows, and [choice], when it
    returns, returns as many draws as asked for. *)
Record backend_contract (backend : Backend) : Prop := mkContract {
  sample_columns : ∀ df seed, df_columns (sample backend df seed) = df_columns df;
  sample_rows : ∀ df seed, df_rows (sample backend df seed) ≡ₚ df_rows df;
  random_choice_length : ∀ g k n p draws,
    random_choice backend g k n p = Returned draws → length draws = n;
}.

(** ** Module constants *)

Definition default_random_seed : Z := 42.

Definition TMP_SPLIT_COL : string := "__SPLIT__".

(** [DEFAULT_PROBABILITIES = (0.7, 0.1, 0.2)]. *)
Definition DEFAULT_PROBABILITIES : list Q :=
  [double (7 # 10); double (1 # 10); double (2 # 10)].

(** Modelled from the spec: the constant [SPLIT] of [ludwig.constants], which
    is not among the sources; the spec names the reserved fixed-split column
    ["split"]. *)
Definition SPLIT : string := "split".

(** ** Splitters *)

(** One constructor per class, holding what [__init__] stores on [self]. *)
Inductive Splitter : Type :=
  | RandomSplitter (probabilities : list Q)
  | FixedSplitter (column : string)
  | StratifySplitter (column : string) (probabilities : list Q)
  | DatetimeSplitter (column : string) (probabilities : list Q)
                     (datetime_format : option string) (fill_value : string).

Inductive attr : Type :=
  | AStr (s : string)
  | AOptStr (o : option string)
  | AProbs (p : list Q).

Definition class_name (self : Splitter) : string :=
  match self with
  | RandomSplitter _ => "RandomSplitter"
  | FixedSplitter _ => "FixedSplitter"
  | StratifySplitter _ _ => "StratifySplitter"
  | DatetimeSplitter _ _ _ _ => "DatetimeSplitter"
  end.

(** The instance attributes, under the names [__init__] assigns them to. *)
Definition instance_dict (self : Splitter) : list (string * attr) :=
  match self with
  | RandomSplitter probabilities =>
      [("probabilities", AProbs probabilities)]
  | FixedSplitter column =>
      [("column", AStr column)]
  | StratifySplitter column probabilities =>
      [("column", AStr column); ("probabilities", AProbs probabilities)]
  | DatetimeSplitter column probabilities datetime_format fill_value =>
      [("column", AStr column); ("probabilities", AProbs probabilities);
       ("datetime_format", AOptStr datetime_format); ("fill_value", AStr fill_value)]
  end.

Fixpoint assoc (name : string) (d : list (string * attr)) : option attr :=
  match d with
  | [] => None
  | (k, a) :: d' => if String.eqb k name then Some a else assoc name d'
  end.

(** [self.name]: a data attribute of the instance, [AttributeError] when the
    instance has none of that name. *)
Definition getattr (self : Splitter) (name : string) : outcome attr :=
  match assoc name (instance_dict self) with
  | Some a => Returned a
  | None =>
      Raised (AttributeError
        ("'" +:+ class_name self +:+ "' object has no attribute '" +:+ name +:+ "'"))
  end.

Definition getattr_str (self : Splitter) (name : string) : outcome string :=
  a ← getattr self name;
  match a with
  | AStr s => Returned s
  | _ => Raised (TypeError "expected str")
  end.

Definition getattr_probs (self : Splitter) (name : string) : outcome (list Q) :=
  a ← getattr self name;
  match a with
  | AProbs p => Returned p
  | _ => Raised (TypeError "expected a sequence of floats")
  end.

(** [x > 0] on a probability. *)
Definition Qpositive (x : Q) : bool := negb (Qle_bool x 0).

(** *** [Splitter.has_split] and its overrides *)

(** The base class: every fold is reported present. *)
Definition Splitter_has_split (self : Splitter) (split_index : Z) : outcome bool :=
  Returned true.

(** [RandomSplitter], [StratifySplitter] and [DatetimeSplitter] each override
    it with the same body: [self.probabilities[split_index] > 0]. *)
Definition probabilities_has_split (self : Splitter) (split_index : Z) : outcome bool :=
  probabilities ← getattr_probs self "probabilities";
  p ← py_index probabilities split_index;
  Returned (Qpositive p).

Definition has_split (self : Splitter) (split_index : Z) : outcome bool :=
  match self with
  | RandomSplitter _ => probabilities_has_split self split_index
  | FixedSplitter _ => Splitter_has_split self split_index
  | StratifySplitter _ _ => probabilities_has_split self split_index
  | DatetimeSplitter _ _ _ _ => probabilities_has_split self split_index
  end.

(** *** [RandomSplitter.split] *)

Definition RandomSplitter_split (self : Splitter) (backend : Backend) (random_seed : Z)
  : Py Folds :=
  set_random_seed random_seed;;
  df ← get_df;
  probabilities ← lift (getattr_probs self "probabilities");
  if partitioned backend then
    mret (random_split backend df probabilities random_seed)
  else
    let n := Z.of_nat (len df) in
    p0 ← lift (py_index probabilities 0);
    let d1 := py_int (float_mul p0 (float_of_int n)) in
    p1 ← lift (py_index probabilities 1);
    let d2 := d1 + py_int (float_mul p1 (float_of_int n)) in
    mret (np_split (sample backend df random_seed) d1 d2).

(** *** [split_dataset_ttv] and [_split_on_series] *)

(** The cell of column [name] holds the fold label [i]. *)
Definition has_label (name : string) (i : Z) (r : Row) : bool :=
  bool_decide (cell name r = VScalar (SInt i)).

(** Modelled from the spec: [split_dataset_ttv] of [ludwig.utils.data_utils],
    which is not among the sources.  The spec has it partition the rows by
    equality of the label column to 0, 1 and 2, keeping the original row order
    inside each fold, each output a populated dataset or the [None]
    placeholder. *)
Definition select_fold (df : DataFrame) (name : string) (i : Z) : option DataFrame :=
  match filter (λ r, has_label name i r = true) (df_rows df) with
  | [] => None
  | rows => Some (mkDataFrame (df_columns df) rows)
  end.

Definition split_dataset_ttv (df : DataFrame) (name : string) : Folds :=
  (select_fold df name 0, select_fold df name 1, select_fold df name 2).

(** [df.drop(columns=TMP_SPLIT_COL) if df is not None else None]. *)
Definition drop_if_not_None (f : option DataFrame) : outcome (option DataFrame) :=
  match f with
  | Some d => d' ← df_drop d TMP_SPLIT_COL; Returned (Some d')
  | None => Returned None
  end.

Definition _split_on_series (series : list value) : Py Folds :=
  setitem TMP_SPLIT_COL series;;
  df ← get_df;
  let '(f0, f1, f2) := split_dataset_ttv df TMP_SPLIT_COL in
  g0 ← lift (drop_if_not_None f0);
  g1 ← lift (drop_if_not_None f1);
  g2 ← lift (drop_if_not_None f2);
  mret (g0, g1, g2).

(** *** [FixedSplitter.split] *)

Definition FixedSplitter_split (self : Splitter) (backend : Backend) (random_seed : Z)
  : Py Folds :=
  df ← get_df;
  column ← lift (getattr_str self "column");
  series ← lift (df_getitem df column);
  _split_on_series series.

(** *** [StratifySplitter.split] *)

(** [series.unique()]: the distinct values in order of first appearance. *)
Fixpoint unique_from (seen : list value) (l : list value) : list value :=
  match l with
  | [] => []
  | x :: l' =>
      if bool_decide (x ∈ seen) then unique_from seen l'
      else x :: unique_from (x :: seen) l'
  end.

Definition unique (l : list value) : list value := unique_from [] l.

(** A missing value: [None], which pandas treats as NaN. *)
Definition is_missing (x : value) : bool :=
  match x with
  | VScalar SNone => true
  | _ => false
  end.

(** One entry of [series == val]: pandas compares a missing value unequal to
    everything, itself included. *)
Definition series_eq (x val : value) : bool :=
  negb (is_missing x) && negb (is_missing val) && bool_decide (x = val).

(** [index[series == val].tolist()]: the labels of the rows whose value
    equals [val]. *)
Fixpoint labels_where (val : value) (labels : list Z) (series : list value) : list Z :=
  match labels, series with
  | i :: labels', x :: series' =>
      if series_eq x val then i :: labels_where val labels' series'
      else labels_where val labels' series'
  | _, _ => []
  end.

(** [a[i] = v] on a one-dimensional array: a negative index counts from the
    end, an index outside [-n, n) raises. *)
Definition ndarray_set (a : list Z) (i v : Z) : outcome (list Z) :=
  let n := Z.of_nat (length a) in
  let j := if i <? 0 then i + n else i in
  if (0 <=? j) && (j <? n) then Returned (<[Z.to_nat j := v]> a)
  else Raised (IndexError
    ("index " +:+ pretty i +:+ " is out of bounds for axis 0 with size " +:+ pretty n)).

Fixpoint ndarray_set_pairs (a : list Z) (idx vals : list Z) : outcome (list Z) :=
  match idx, vals with
  | i :: idx', v :: vals' =>
      a' ← ndarray_set a i v;
      ndarray_set_pairs a' idx' vals'
  | _, _ => Returned a
  end.

(** [a[idx_list] = val_list]: one write per position of [idx_list]. *)
Definition ndarray_setitem (a : list Z) (idx vals : list Z) : outcome (list Z) :=
  if decide (length idx = length vals) then ndarray_set_pairs a idx vals
  else Raised (ValueError "shape mismatch: value array could not be broadcast to indexing result").

(** One pass of the loop body for the stratify value [val]. *)
Definition stratify_step (backend : Backend) (probabilities : list Q)
    (labels : list Z) (series : list value) (split : list Z) (val : value)
  : Py (list Z) :=
  let idx_list := labels_where val labels series in
  g ← get_rng;
  val_list ← lift (random_choice backend g 3 (length idx_list) probabilities);
  put_rng (mkRng (rng_seed g) (rng_consumed g + length idx_list)%nat);;
  lift (ndarray_setitem split idx_list val_list).

Fixpoint stratify_loop (backend : Backend) (probabilities : list Q)
    (labels : list Z) (series : list value) (split : list Z) (vals : list value)
  : Py (list Z) :=
  match vals with
  | [] => mret split
  | val :: vals' =>
      split' ← stratify_step backend probabilities labels series split val;
      stratify_loop backend probabilities labels series split' vals'
  end.

Definition stratify_partitioned_message : string :=
  "Split type " +:+ dq +:+ "stratify" +:+ dq
  +:+ " is not supported with a partitioned dataset.".

(** The labelling phase of [StratifySplitter.split]: seeding, the zero array
    and the loop that fills it.  The fold labels are stored in a float array;
    they are whole numbers and are kept as integers here. *)
Definition stratify_labels (self : Splitter) (backend : Backend) (random_seed : Z)
  : Py (list Z) :=
  set_random_seed random_seed;;
  df ← get_df;
  let split := replicate (len df) 0 in
  column ← lift (getattr_str self "column");
  series ← lift (df_getitem df column);
  probabilities ← lift (getattr_probs self "probabilities");
  stratify_loop backend probabilities (index df) series split (unique series).

Definition StratifySplitter_split (self : Splitter) (backend : Backend) (random_seed : Z)
  : Py Folds :=
  if partitioned backend then
    lift (Raised (ValueError stratify_partitioned_message))
  else
    split ← stratify_labels self backend random_seed;
    _split_on_series ((λ z, VScalar (SInt z)) <$> split).

(** *** [DatetimeSplitter.split] *)

Definition list_to_date_str (x : value) : outcome value :=
  c ← (if negb (isinstance_list x)
       then n ← py_len x; Returned (negb (n =? 9))
       else Returned false);
  if (c : bool) then Returned x
  else
    x0 ← py_getitem x 0;
    x1 ← py_getitem x 1;
    x2 ← py_getitem x 2;
    x5 ← py_getitem x 5;
    x6 ← py_getitem x 6;
    x7 ← py_getitem x 7;
    Returned (VScalar (SStr
      (py_str x0 +:+ "-" +:+ py_str x1 +:+ "-" +:+ py_str x2 +:+ " "
       +:+ py_str x5 +:+ ":" +:+ py_str x6 +:+ ":" +:+ py_str x7))).

Definition DatetimeSplitter_split (self : Splitter) (backend : Backend) (random_seed : Z)
  : Py Folds :=
  df ← get_df;
  col ← lift (getattr_str self "col");
  series ← lift (df_getitem df col);
  strs ← lift (map_objects backend series list_to_date_str);
  setitem TMP_SPLIT_COL strs;;
  df ← get_df;
  tmp ← lift (df_getitem df TMP_SPLIT_COL);
  stamps ← lift (to_datetime backend tmp);
  setitem TMP_SPLIT_COL ((λ z, VScalar (SInt z)) <$> stamps);;
  df ← get_df;
  sorted ← lift (sort_values backend df TMP_SPLIT_COL);
  df' ← lift (df_drop sorted TMP_SPLIT_COL);
  probabilities ← lift (getattr_probs self "probabilities");
  lift (df_engine_split backend df' probabilities).

(** *** Method dispatch: [splitter.split(df, backend, random_seed)] *)

Definition split (self : Splitter) (backend : Backend) (random_seed : Z) : Py Folds :=
  match self with
  | RandomSplitter _ => RandomSplitter_split self backend random_seed
  | FixedSplitter _ => FixedSplitter_split self backend random_seed
  | StratifySplitter _ _ => StratifySplitter_split self backend random_seed
  | DatetimeSplitter _ _ _ _ => DatetimeSplitter_split self backend random_seed
  end.

(** *** [required_columns] *)

(** The base class, which [RandomSplitter] keeps: no column is needed. *)
Definition Splitter_required_columns (self : Splitter) : outcome (list string) :=
  Returned [].

(** [FixedSplitter], [StratifySplitter] and [DatetimeSplitter] each override
    it with the same body: [[self.column]]. *)
Definition column_required_columns (self : Splitter) : outcome (list string) :=
  column ← getattr_str self "column";
  Returned [column].

Definition required_columns (self : Splitter) : outcome (list string) :=
  match self with
  | RandomSplitter _ => Splitter_required_columns self
  | FixedSplitter _ => column_required_columns self
  | StratifySplitter _ _ => column_required_columns self
  | DatetimeSplitter _ _ _ _ => column_required_columns self
  end.

(** *** [validate] *)

(** A declared feature is a dictionary; the configuration maps
    ["input_features"] and ["output_features"] to lists of them. *)
Abbreviation Feature := (gmap string value).

(** [d[key]] on a dictionary. *)
Definition dict_getitem {V : Type} (d : gmap string V) (key : string) : outcome V :=
  match d !! key with
  | Some v => Returned v
  | None => Raised (KeyError key)
  end.

(** [[f for f in features if f[COLUMN] == column]]. *)
Definition features_of_column (COLUMN column : string) (features : list Feature)
  : list Feature :=
  filter (λ f, f !! COLUMN = Some (VScalar (SStr column))) features.

Section validate.

(** The names [COLUMN], [TYPE], [BINARY], [CATEGORY] and [DATE] come from
    [ludwig.constants], which is not among the sources: they stand for any
    strings here. *)
Variables (COLUMN TYPE BINARY CATEGORY DATE : string).

(** The base class, which [RandomSplitter] and [FixedSplitter] keep:
    nothing is checked.  The result of a [validate] is the list of messages
    it logged at level info. *)
Definition Splitter_validate (self : Splitter) (config : gmap string (list Feature))
  : outcome (list string) :=
  Returned [].

(** The two overriding bodies differ in the feature types they accept and
    in their two messages only. *)
Definition validate_column_type (allowed : list string)
    (not_among_features must_be : string → string)
    (self : Splitter) (config : gmap string (list Feature)) : outcome (list string) :=
  input_features ← dict_getitem config "input_features";
  output_features ← dict_getitem config "output_features";
  let features := input_features ++ output_features in
  feature_names ← mapM (λ f, dict_getitem f COLUMN) features;
  column ← getattr_str self "column";
  if negb (bool_decide (VScalar (SStr column) ∈ feature_names)) then
    Returned [not_among_features column]
  else
    f ← py_index (features_of_column COLUMN column features) 0;
    type ← dict_getitem f TYPE;
    if negb (bool_decide (type ∈ (λ t, VScalar (SStr t)) <$> allowed)) then
      Raised (ValueError (must_be column))
    else Returned [].

Definition stratify_not_among_features (column : string) : string :=
  "Stratify column " +:+ column +:+ " is not among the features. "
  +:+ "Cannot establish if it is a binary or category".

Definition stratify_must_be (column : string) : string :=
  "Feature for stratify column " +:+ column +:+ " must be binary or category".

Definition StratifySplitter_validate : Splitter → gmap string (list Feature) → outcome (list string) :=
  validate_column_type [BINARY; CATEGORY] stratify_not_among_features stratify_must_be.

Definition datetime_not_among_features (column : string) : string :=
  "Datetime split column " +:+ column +:+ " is not among the features. "
  +:+ "Cannot establish if it is a valid datetime.".

Definition datetime_must_be (column : string) : string :=
  "Feature for datetime split column " +:+ column +:+ " must be a datetime".

Definition DatetimeSplitter_validate : Splitter → gmap string (list Feature) → outcome (list string) :=
  validate_column_type [DATE] datetime_not_among_features datetime_must_be.

(** Method dispatch: [splitter.validate(config)]. *)
Definition validate (self : Splitter) (config : gmap string (list Feature))
  : outcome (list string) :=
  match self with
  | RandomSplitter _ => Splitter_validate self config
  | FixedSplitter _ => Splitter_validate self config
  | StratifySplitter _ _ => StratifySplitter_validate self config
  | DatetimeSplitter _ _ _ _ => DatetimeSplitter_validate self config
  end.

End validate.

(** ** The registry and [get_splitter] *)

Inductive SplitterClass : Type :=
  | RandomSplitterClass
  | FixedSplitterClass
  | StratifySplitterClass
  | DatetimeSplitterClass.

(** Modelled from the spec: the [Registry] class of [ludwig.utils.registry],
    which is not among the sources.  The spec has a name-to-constructor table
    with the keys ["random"] (the default), ["fixed"], ["stratify"] and
    ["datetime"]; an absent type name resolves to the default; [get] answers
    [None] for any other name. *)
Definition split_registry : gmap string SplitterClass :=
  {[ "random" := RandomSplitterClass;
     "fixed" := FixedSplitterClass;
     "stratify" := StratifySplitterClass;
     "datetime" := DatetimeSplitterClass ]}.

Definition split_registry_get (type : option string) : option SplitterClass :=
  match type with
  | None => Some RandomSplitterClass
  | Some name => split_registry !! name
  end.

(** The keyword arguments of a split configuration, typed as the constructors
    annotate them; a key this record has no field for is one every
    constructor collects with its other keyword arguments and ignores. *)
Record Kwargs : Type := mkKwargs {
  kw_type : option string;
  kw_column : option string;
  kw_probabilities : option (list Q);
  kw_datetime_format : option string;
  kw_fill_value : option string;
}.

(** [{}]. *)
Definition no_kwargs : Kwargs := mkKwargs None None None None None.

Definition missing_column : exn :=
  TypeError "__init__() missing 1 required positional argument: 'column'".

(** Calling the class on the keyword arguments: each [__init__] with its
    defaults. *)
Definition construct (cls : SplitterClass) (kwargs : Kwargs) : outcome Splitter :=
  match cls with
  | RandomSplitterClass =>
      Returned (RandomSplitter (default DEFAULT_PROBABILITIES (kw_probabilities kwargs)))
  | FixedSplitterClass =>
      Returned (FixedSplitter (default SPLIT (kw_column kwargs)))
  | StratifySplitterClass =>
      match kw_column kwargs with
      | Some column =>
          Returned (StratifySplitter column
                      (default DEFAULT_PROBABILITIES (kw_probabilities kwargs)))
      | None => Raised missing_column
      end
  | DatetimeSplitterClass =>
      match kw_column kwargs with
      | Some column =>
          Returned (DatetimeSplitter column
                      (default DEFAULT_PROBABILITIES (kw_probabilities kwargs))
                      (kw_datetime_format kwargs)
                      (default "" (kw_fill_value kwargs)))
      | None => Raised missing_column
      end
  end.

(** What a call can hand back: a splitter, or an exception instance passed
    around as an ordinary object. *)
Inductive PyObject : Type :=
  | ObjSplitter (s : Splitter)
  | ObjException (e : exn).

(** [f"Invalid split type: {type}"]. *)
Definition invalid_split_type (type : option string) : string :=
  "Invalid split type: " +:+ default "None" type.

Definition get_splitter (kwargs : Kwargs) : outcome PyObject :=
  let type := kw_type kwargs in
  match split_registry_get type with
  | None => Returned (ObjException (ValueError (invalid_split_type type)))
  | Some splitter_cls => s ← construct splitter_cls kwargs; Returned (ObjSplitter s)
  end.

(** ** [split_dataset] *)

(** An entry of the global preprocessing parameters: the split configuration
    is a dictionary of keyword arguments, other entries are plain values. *)
Inductive param : Type :=
  | PDict (kwargs : Kwargs)
  | PValue (v : value).

Definition split_column_warning : string :=
  "Detected " +:+ dq +:+ "split" +:+ dq
  +:+ " column in the data, but using default split type "
  +:+ dq +:+ "random" +:+ dq +:+ ". Did you mean to set split type to "
  +:+ dq +:+ "fixed" +:+ dq +:+ "?".

(** [obj.split(df, backend, random_seed)] on whatever [get_splitter] handed
    back. *)
Definition call_split (obj : PyObject) (backend : Backend) (random_seed : Z) : Py Folds :=
  match obj with
  | ObjSplitter s => split s backend random_seed
  | ObjException _ =>
      lift (Raised (AttributeError "'ValueError' object has no attribute 'split'"))
  end.

Definition split_dataset (global_preprocessing_parameters : gmap string param)
    (backend : Backend) (random_seed : Z) : Py Folds :=
  df ← get_df;
  (if negb (bool_decide (is_Some (global_preprocessing_parameters !! "split")))
      && contains df SPLIT
   then warn split_column_warning
   else mret ());;
  kwargs ← lift (match global_preprocessing_parameters !! "split" with
                 | None => Returned no_kwargs
                 | Some (PDict kwargs) => Returned kwargs
                 | Some (PValue _) =>
                     Raised (TypeError "argument must be a mapping")
                 end);
  splitter ← lift (get_splitter kwargs);
  call_split splitter backend random_seed.

(** ** A concrete backend

    A small non-partitioned engine in the manner of the pandas one, on which
    the definitions above can be run: [sample] reverses the rows, [choice]
    checks the probabilities as numpy does and then cycles through the
    outcomes from the generator state, timestamps are integer cells, and the
    engine's own [split] cuts by row position. *)

(** numpy's checks of [p] in [choice(k, size, p=p)], in numpy's order; the
    sum may miss 1 by the square root of the float epsilon, [2^-26]. *)
Definition example_choice_check (k : nat) (p : list Q) : option string :=
  if negb (Nat.eqb (length p) k) then
    Some "'a' and 'p' must have same size"
  else if existsb (λ x, negb (Qle_bool 0 x)) p then
    Some "probabilities are not non-negative"
  else if negb (Qle_bool (Qabs (foldr Qplus 0%Q p - 1)) (1 # 67108864)) then
    Some "probabilities do not sum to 1"
  else None.

Definition example_choice (g : RngState) (k size : nat) (p : list Q) : outcome (list Z) :=
  match example_choice_check k p with
  | Some msg => Raised (ValueError msg)
  | None =>
      Returned ((λ i, (rng_seed g + Z.of_nat (rng_consumed g) + Z.of_nat i)
                      `mod` Z.of_nat k) <$> seq 0 size)
  end.

Definition example_to_datetime (series : list value) : outcome (list Z) :=
  mapM (λ v, match v with
             | VScalar (SInt z) => Returned z
             | _ => Raised (ValueError "Unknown datetime string format")
             end) series.

Definition example_engine_split (df : DataFrame) (probabilities : list Q) : outcome Folds :=
  let n := Z.of_nat (len df) in
  p0 ← py_index probabilities 0;
  p1 ← py_index probabilities 1;
  let d1 := py_int (float_mul p0 (float_of_int n)) in
  Returned (np_split df d1 (d1 + py_int (float_mul p1 (float_of_int n)))).

Definition example_backend : Backend := {|
  partitioned := false;
  map_objects := λ series fn, mapM fn series;
  to_datetime := example_to_datetime;
  df_engine_split := example_engine_split;
  random_choice := example_choice;
  random_split := λ df _ _, (Some df, None, None);
  sample := λ df _, mkDataFrame (df_columns df) (reverse (df_rows df));
  sort_values := λ df _, Returned df;
|}.

(** The same engine, declared partitioned. *)
Definition example_partitioned_backend : Backend := {|
  partitioned := true;
  map_objects := map_objects example_backend;
  to_datetime := to_datetime example_backend;
  df_engine_split := df_engine_split example_backend;
  random_choice := random_choice example_backend;
  random_split := random_split example_backend;
  sample := sample example_backend;
  sort_values := sort_values example_backend;
|}.

(** A four-row frame with a fixed-split column ["split"] and a data column
    ["A"]. *)
Definition example_row (i s : Z) : Row :=
  mkRow i {[ "split" := VScalar (SInt s); "A" := VScalar (SInt (10 * i)) ]}.

Definition example_df : DataFrame :=
  mkDataFrame {[ "split"; "A" ]}
    [example_row 0 0; example_row 1 2; example_row 2 0; example_row 3 1].

Definition example_world : World := mkWorld example_df (mkRng 0 0) [].

(** A frame whose middle row has no value in column ["y"] and an index label
    beyond the number of rows. *)
Definition example_df_missing : DataFrame :=
  mkDataFrame {[ "y" ]}
    [mkRow 0 {[ "y" := VScalar (SStr "a") ]};
     mkRow 7 {[ "y" := VScalar SNone ]};
     mkRow 1 {[ "y" := VScalar (SStr "a") ]}].


(** ** Vocabulary of the statements *)

(** A computation that leaves the component [f] of the state as it found it
    (it emits no warning, for [f := w_warnings]; it does not touch the
    caller's dataset, for [f := w_df]). *)
Definition preserves {X A : Type} (f : World → X) (m : Py A) : Prop :=
  ∀ w, f (m w).2 = f w.

(** The state after [msg] has been emitted as a warning. *)
Definition warned (msg : string) (w : World) : World :=
  mkWorld (w_df w) (w_rng w) (w_warnings w ++ [msg]).

(** The caller's frame after [df[TMP_SPLIT_COL] = series]. *)
Definition labelled (df : DataFrame) (series : list value) : DataFrame :=
  mkDataFrame ({[TMP_SPLIT_COL]} ∪ df_columns df)
              (zip_with (set_cell TMP_SPLIT_COL) (df_rows df) series).

(** Fold [i] of a labelled frame with the scratch column dropped. *)
Definition returned_fold (df : DataFrame) (i : Z) : option DataFrame :=
  match select_fold df TMP_SPLIT_COL i with
  | Some d =>
      Some (mkDataFrame (df_columns d ∖ {[TMP_SPLIT_COL]})
                        (drop_cell TMP_SPLIT_COL <$> df_rows d))
  | None => None
  end.

(** Puts three folds back together: for each label of the split column in
    turn, the next row of the fold the label names. *)
Fixpoint unsplit (labels : list value) (f0 f1 f2 : list Row) : list Row :=
  match labels with
  | [] => []
  | l :: labels' =>
      if decide (l = VScalar (SInt 0)) then
        match f0 with
        | r :: f0' => r :: unsplit labels' f0' f1 f2
        | [] => []
        end
      else if decide (l = VScalar (SInt 1)) then
        match f1 with
        | r :: f1' => r :: unsplit labels' f0 f1' f2
        | [] => []
        end
      else
        match f2 with
        | r :: f2' => r :: unsplit labels' f0 f1 f2'
        | [] => []
        end
  end.

(** A frame that already has a column under the scratch name. *)
Definition example_df_scratch : DataFrame :=
  mkDataFrame {[ "split"; "__SPLIT__" ]}
    [mkRow 0 {[ "split" := VScalar (SInt 0); "__SPLIT__" := VScalar (SStr "a") ]};
     mkRow 1 {[ "split" := VScalar (SInt 1); "__SPLIT__" := VScalar (SStr "b") ]}].

(** numpy's error for a write [a[i] = v] whose index [i] lies outside
    [-n, n), [n] the size of the array. *)
Definition index_out_of_bounds (i : Z) (n : nat) : exn :=
  IndexError ("index " +:+ pretty i +:+ " is out of bounds for axis 0 with size "
              +:+ pretty (Z.of_nat n)).

(** What a frame holds apart from the scratch column: the index, the other
    columns and their cells. *)
Definition unscratched (df : DataFrame) : DataFrame :=
  mkDataFrame (df_columns df ∖ {[TMP_SPLIT_COL]}) (drop_cell TMP_SPLIT_COL <$> df_rows df).

(** * Properties *)

(** ** Registry resolution *)

Lemma get_splitter_unregistered (kwargs : Kwargs) (name : string) :
  kw_type kwargs = Some name →
  split_registry !! name = None →
  get_splitter kwargs
  = Returned (ObjException (ValueError ("Invalid split type: " +:+ name))).
Proof.
  intros Hty Hreg. unfold get_splitter, split_registry_get.
  rewrite Hty, Hreg. reflexivity.
Qed.

(** C1: for the unregistered type name ["bogus"], [get_splitter] does not
    raise: it returns a [ValueError] instance as its result, where the claim
    asks for the error to be raised. *)
Theorem get_splitter_unknown_type_returns_exception :
  get_splitter (mkKwargs (Some "bogus") None None None None)
  = Returned (ObjException (ValueError "Invalid split type: bogus")).
Proof. apply get_splitter_unregistered; reflexivity. Qed.

(** ** [DatetimeSplitter] *)

(** C2: [DatetimeSplitter.split] reads [self.col], an attribute the instance
    does not have ([__init__] stores the name under [self.column]), so on
    every dataset and backend the call raises [AttributeError] before it
    touches the dataset; it never returns three folds. *)
Theorem DatetimeSplitter_split_raises
    (column : string) (probabilities : list Q) (datetime_format : option string)
    (fill_value : string) (backend : Backend) (random_seed : Z) (w : World) :
  split (DatetimeSplitter column probabilities datetime_format fill_value)
        backend random_seed w
  = (Raised (AttributeError "'DatetimeSplitter' object has no attribute 'col'"), w).
Proof. reflexivity. Qed.

(** A nine-element component list is turned into the date string. *)
Lemma list_to_date_str_components (x0 x1 x2 x3 x4 x5 x6 x7 x8 : scalar) :
  list_to_date_str (VList [x0; x1; x2; x3; x4; x5; x6; x7; x8])
  = Returned (VScalar (SStr
      (py_str x0 +:+ "-" +:+ py_str x1 +:+ "-" +:+ py_str x2 +:+ " "
       +:+ py_str x5 +:+ ":" +:+ py_str x6 +:+ ":" +:+ py_str x7))).
Proof. reflexivity. Qed.

(** A string whose length is not nine is handed on unchanged. *)
Lemma list_to_date_str_other_length (s : string) :
  String.length s ≠ 9%nat →
  list_to_date_str (VScalar (SStr s)) = Returned (VScalar (SStr s)).
Proof.
  intros Hlen. unfold list_to_date_str. simpl.
  destruct (Z.eqb_spec (Z.of_nat (String.length s)) 9) as [E|E]; [lia|reflexivity].
Qed.

(** A value that is neither a list nor sized makes the test itself raise. *)
Lemma list_to_date_str_unsized :
  list_to_date_str (VScalar SNone)
  = Raised (TypeError "object of type 'NoneType' has no len()").
Proof. reflexivity. Qed.

(** C6: the guard of [list_to_date_str] joins its two tests with [and] where
    the claim needs [or]: the nine-character date string ["2020-1-15"] is not
    a component list, yet it is not left as it is but rebuilt from its
    characters 0, 1, 2, 5, 6 and 7. *)
Theorem list_to_date_str_mangles_nine_char_string :
  list_to_date_str (VScalar (SStr "2020-1-15"))
  = Returned (VScalar (SStr "2-0-2 1:-:1")).
Proof. reflexivity. Qed.

(** ** [StratifySplitter] on a partitioned backend *)

(** C7: on a partitioned backend [StratifySplitter.split] raises a
    [ValueError] whose message names the stratify split type and the
    partitioned dataset, and the process state is what it was before the
    call: the generator is not seeded, the dataset is not touched, nothing is
    drawn. *)
Theorem StratifySplitter_split_partitioned
    (column : string) (probabilities : list Q) (backend : Backend)
    (random_seed : Z) (w : World) :
  partitioned backend = true →
  split (StratifySplitter column probabilities) backend random_seed w
  = (Raised (ValueError stratify_partitioned_message), w).
Proof.
  intros Hpart. simpl. unfold StratifySplitter_split. rewrite Hpart. reflexivity.
Qed.

Lemma StratifySplitter_split_partitioned_witness :
  partitioned example_partitioned_backend = true
  ∧ split (StratifySplitter "split" DEFAULT_PROBABILITIES)
          example_partitioned_backend 42 example_world
    = (Raised (ValueError stratify_partitioned_message), example_world).
Proof.
  split; [reflexivity|].
  apply (StratifySplitter_split_partitioned "split" DEFAULT_PROBABILITIES
           example_partitioned_backend 42 example_world).
  reflexivity.
Defined.

(** ** [has_split] *)

Lemma Qpositive_spec (x : Q) : Qpositive x = true ↔ (0 < x)%Q.
Proof.
  unfold Qpositive. rewrite negb_true_iff.
  split.
  - intros H. apply Qnot_le_lt. intros Hle.
    apply Qle_bool_iff in Hle. congruence.
  - intros H. destruct (Qle_bool x 0) eqn:E; [|reflexivity].
    apply Qle_bool_iff in E. exfalso. exact (Qlt_not_le _ _ H E).
Qed.

Lemma py_index_lookup {A : Type} (l : list A) (i : Z) (a : A) :
  0 ≤ i → l !! Z.to_nat i = Some a → py_index l i = Returned a.
Proof.
  intros Hi Hl. unfold py_index.
  pose proof (lookup_lt_Some _ _ _ Hl) as Hlt.
  destruct (Z.ltb_spec i 0) as [?|_]; [lia|].
  destruct (Z.leb_spec 0 i) as [_|?]; [|lia].
  destruct (Z.ltb_spec i (Z.of_nat (length l))) as [_|?]; [|lia].
  simpl. rewrite Hl. reflexivity.
Qed.

(** C8, counterexample: a split configuration of type ["fixed"] that carries
    the probabilities (1, 0, 0) builds a [FixedSplitter], which keeps no
    probabilities and answers [has_split(1)] with true, although the
    configured probability of fold 1 is not positive. *)
Lemma has_split_fixed_ignores_probabilities :
  get_splitter (mkKwargs (Some "fixed") None (Some [1; 0; 0]%Q) None None)
  = Returned (ObjSplitter (FixedSplitter "split"))
  ∧ has_split (FixedSplitter "split") 1 = Returned true
  ∧ Qpositive 0 = false
  ∧ getattr (FixedSplitter "split") "probabilities"
    = Raised (AttributeError "'FixedSplitter' object has no attribute 'probabilities'").
Proof. repeat split. Qed.

(** C8, amended: [RandomSplitter], [StratifySplitter] and [DatetimeSplitter]
    answer [has_split(i)] with [probabilities[i] > 0] for their configured
    probabilities; [FixedSplitter], which has none, answers true for every
    fold. *)
Theorem has_split_spec :
  (∀ (column : string) (i : Z), has_split (FixedSplitter column) i = Returned true)
  ∧ (∀ (self : Splitter) (probabilities : list Q) (i : Z) (p : Q),
       getattr self "probabilities" = Returned (AProbs probabilities) →
       0 ≤ i < 3 →
       probabilities !! Z.to_nat i = Some p →
       ∃ b, has_split self i = Returned b ∧ (b = true ↔ (0 < p)%Q)).
Proof.
  split; [reflexivity|].
  intros self probabilities i p Hattr Hi Hp.
  exists (Qpositive p). split; [|apply Qpositive_spec].
  assert (Hidx : probabilities_has_split self i = Returned (Qpositive p)).
  { unfold probabilities_has_split, getattr_probs. rewrite Hattr. simpl.
    rewrite (py_index_lookup probabilities i p); [reflexivity|lia|exact Hp]. }
  destruct self; simpl; try exact Hidx.
  discriminate Hattr.
Qed.

Lemma has_split_spec_witness :
  has_split (FixedSplitter "split") 2 = Returned true
  ∧ ∃ b, has_split (StratifySplitter "label" DEFAULT_PROBABILITIES) 1 = Returned b
         ∧ (b = true ↔ (0 < double (1 # 10))%Q).
Proof.
  split.
  - apply (proj1 has_split_spec).
  - apply (proj2 has_split_spec (StratifySplitter "label" DEFAULT_PROBABILITIES)
             DEFAULT_PROBABILITIES 1 (double (1 # 10))).
    + reflexivity.
    + lia.
    + reflexivity.
Defined.

(** ** Framing: what a computation leaves alone *)

Section preserves.
Context {X : Type} (f : World → X).

Lemma preserves_ret {A : Type} (a : A) : preserves f (mret a : Py A).
Proof. intros w. reflexivity. Qed.

Lemma preserves_lift {A : Type} (o : outcome A) : preserves f (lift o).
Proof. intros w. reflexivity. Qed.

Lemma preserves_get_df : preserves f get_df.
Proof. intros w. reflexivity. Qed.

Lemma preserves_get_rng : preserves f get_rng.
Proof. intros w. reflexivity. Qed.

Lemma preserves_bind {A B : Type} (m : Py A) (k : A → Py B) :
  preserves f m → (∀ a, preserves f (k a)) → preserves f (m ≫= k).
Proof.
  intros Hm Hk w. unfold mbind, Py_bind.
  specialize (Hm w). destruct (m w) as [[a|e] w']; simpl in *.
  - rewrite Hk. exact Hm.
  - exact Hm.
Qed.
End preserves.

Lemma put_df_warnings (df : DataFrame) : preserves w_warnings (put_df df).
Proof. intros w. reflexivity. Qed.

Lemma put_rng_warnings (g : RngState) : preserves w_warnings (put_rng g).
Proof. intros w. reflexivity. Qed.

Lemma put_rng_df (g : RngState) : preserves w_df (put_rng g).
Proof. intros w. reflexivity. Qed.

Create HintDb frame discriminated.
#[local] Hint Resolve preserves_ret preserves_lift preserves_get_df preserves_get_rng
  put_df_warnings put_rng_warnings put_rng_df : frame.

(** Walks down a computation built from binds, branches and the primitives
    above. *)
Ltac frame :=
  repeat first
    [ solve [auto with frame]
    | apply preserves_bind; [|intros ?]
    | match goal with
      | |- preserves _ (if ?b then _ else _) => destruct b
      | |- preserves _ (match ?x with _ => _ end) => destruct x
      | |- preserves _ (let '(_, _) := ?x in _) => destruct x
      end ].

Lemma setitem_warnings (name : string) (series : list value) :
  preserves w_warnings (setitem name series).
Proof. unfold setitem. frame. Qed.

Lemma split_on_series_warnings (series : list value) :
  preserves w_warnings (_split_on_series series).
Proof.
  unfold _split_on_series.
  apply preserves_bind; [apply setitem_warnings|intros _].
  apply preserves_bind; [frame|intros df].
  destruct (split_dataset_ttv df TMP_SPLIT_COL) as [[f0 f1] f2]. frame.
Qed.

(** The stratify loop leaves the dataset and the warnings alone; it only
    draws from the generator. *)
Lemma stratify_loop_preserves {X : Type} (f : World → X)
    backend probabilities labels series vals :
  (∀ g, preserves f (put_rng g)) →
  ∀ split, preserves f (stratify_loop backend probabilities labels series split vals).
Proof.
  intros Hput.
  induction vals as [|val vals IH]; intros split0; simpl.
  - apply preserves_ret.
  - apply preserves_bind; [|intros split'; apply IH].
    unfold stratify_step.
    apply preserves_bind; [apply preserves_get_rng|intros g].
    apply preserves_bind; [apply preserves_lift|intros val_list].
    apply preserves_bind; [apply Hput|intros _].
    apply preserves_lift.
Qed.

Lemma stratify_labels_preserves {X : Type} (f : World → X)
    self backend random_seed :
  (∀ g, preserves f (put_rng g)) →
  preserves f (stratify_labels self backend random_seed).
Proof.
  intros Hput. unfold stratify_labels, set_random_seed.
  apply preserves_bind; [apply Hput|intros _].
  apply preserves_bind; [apply preserves_get_df|intros df].
  do 3 (apply preserves_bind; [apply preserves_lift|intros ?]).
  apply stratify_loop_preserves, Hput.
Qed.

(** No splitter emits a warning. *)
Lemma split_warnings (self : Splitter) (backend : Backend) (random_seed : Z) :
  preserves w_warnings (split self backend random_seed).
Proof.
  destruct self; simpl.
  - unfold RandomSplitter_split, set_random_seed. frame.
  - unfold FixedSplitter_split.
    do 3 (apply preserves_bind; [frame|intros ?]).
    apply split_on_series_warnings.
  - unfold StratifySplitter_split.
    destruct (partitioned backend); [frame|].
    apply preserves_bind;
      [apply stratify_labels_preserves, put_rng_warnings|intros ?].
    apply split_on_series_warnings.
  - intros w. reflexivity.
Qed.

(** With its default probabilities [RandomSplitter.split] returns on every
    dataset and backend, and changes nothing but the generator. *)
Lemma RandomSplitter_default_returns (backend : Backend) (random_seed : Z) (w : World) :
  ∃ folds, split (RandomSplitter DEFAULT_PROBABILITIES) backend random_seed w
           = (Returned folds, mkWorld (w_df w) (mkRng random_seed 0) (w_warnings w)).
Proof.
  simpl. unfold RandomSplitter_split, set_random_seed.
  unfold mbind, Py_bind, put_rng, get_df, lift. simpl.
  destruct (partitioned backend); simpl; eexists; reflexivity.
Qed.

(** C9: when the parameters have no ["split"] entry and the dataset has a
    column named ["split"], [split_dataset] emits the warning once and goes
    on to return what the default random splitter returns for the dataset,
    without raising; when the entry is present or the column absent, the call
    emits no warning. *)
Theorem split_dataset_warning
    (global_preprocessing_parameters : gmap string param)
    (backend : Backend) (random_seed : Z) (w : World) :
  (global_preprocessing_parameters !! "split" = None →
   contains (w_df w) SPLIT = true →
   split_dataset global_preprocessing_parameters backend random_seed w
   = split (RandomSplitter DEFAULT_PROBABILITIES) backend random_seed
       (warned split_column_warning w)
   ∧ ∃ folds w',
       split_dataset global_preprocessing_parameters backend random_seed w
       = (Returned folds, w')
       ∧ w_warnings w' = w_warnings w ++ [split_column_warning])
  ∧ (is_Some (global_preprocessing_parameters !! "split")
     ∨ contains (w_df w) SPLIT = false →
     w_warnings (split_dataset global_preprocessing_parameters backend random_seed w).2
     = w_warnings w).
Proof.
  split.
  - intros Hnone Hcol.
    assert (Heq : split_dataset global_preprocessing_parameters backend random_seed w
                  = split (RandomSplitter DEFAULT_PROBABILITIES) backend random_seed
                      (warned split_column_warning w)).
    { unfold split_dataset. rewrite Hnone.
      unfold mbind at 1, Py_bind at 1. simpl. rewrite Hcol. reflexivity. }
    split; [exact Heq|].
    destruct (RandomSplitter_default_returns backend random_seed
                (warned split_column_warning w)) as [folds Hfolds].
    exists folds. eexists. split.
    + rewrite Heq. exact Hfolds.
    + reflexivity.
  - intros Hquiet.
    assert (Hpre : negb (bool_decide (is_Some (global_preprocessing_parameters !! "split")))
                   && contains (w_df w) SPLIT = false).
    { destruct Hquiet as [Hsome|Hcol].
      - rewrite (bool_decide_eq_true_2 _ Hsome). reflexivity.
      - rewrite Hcol. apply andb_false_r. }
    unfold split_dataset.
    unfold mbind at 1, Py_bind at 1. simpl. rewrite Hpre.
    apply (preserves_bind w_warnings (mret ())); [frame|intros _].
    apply preserves_bind; [frame|intros kwargs].
    apply preserves_bind; [frame|intros [s|e]]; simpl.
    + apply split_warnings.
    + frame.
Qed.

Lemma split_dataset_warning_witness :
  (∅ : gmap string param) !! "split" = None
  ∧ contains (w_df example_world) SPLIT = true
  ∧ (∃ folds w',
       split_dataset ∅ example_backend 42 example_world = (Returned folds, w')
       ∧ w_warnings w' = w_warnings example_world ++ [split_column_warning])
  ∧ w_warnings (split_dataset {[ "split" := PDict no_kwargs ]}
                  example_backend 42 example_world).2
    = w_warnings example_world.
Proof.
  split; [reflexivity|]. split; [reflexivity|]. split.
  - apply (proj1 (split_dataset_warning ∅ example_backend 42 example_world)).
    + reflexivity.
    + reflexivity.
  - apply (proj2 (split_dataset_warning {[ "split" := PDict no_kwargs ]}
                    example_backend 42 example_world)).
    left. exists (PDict no_kwargs). reflexivity.
Defined.

(** ** [RandomSplitter]: fold sizes *)





(** ** Floats: what rounding keeps *)









Lemma round_double_zero (x : Q) : (x == 0)%Q → round_double x = 0%Q.
Proof.
  intros Hx. unfold round_double.
  rewrite (proj2 (Qeq_bool_iff x 0) Hx). reflexivity.
Qed.








Lemma example_backend_contract : backend_contract example_backend.
Proof.
  split.
  - reflexivity.
  - intros df seed. simpl. apply reverse_Permutation.
  - intros g k n p draws H. simpl in H. unfold example_choice in H.
    destruct (example_choice_check k p); [discriminate H|].
    inversion H. rewrite length_fmap, length_seq. reflexivity.
Qed.


(** ** [_split_on_series] and the scratch column *)

Lemma bind_returned {A B : Type} (m : Py A) (k : A → Py B) (w w' : World) (b : B) :
  (m ≫= k) w = (Returned b, w') →
  ∃ a w1, m w = (Returned a, w1) ∧ k a w1 = (Returned b, w').
Proof.
  unfold mbind, Py_bind. destruct (m w) as [[a|e] w1]; intros H.
  - exists a, w1. split; [reflexivity|exact H].
  - discriminate H.
Qed.

Lemma lift_returned {A : Type} (o : outcome A) (w w' : World) (a : A) :
  lift o w = (Returned a, w') → o = Returned a ∧ w' = w.
Proof. unfold lift. intros H. inversion H. split; reflexivity. Qed.

Lemma drop_selected_fold (df : DataFrame) (i : Z) :
  contains df TMP_SPLIT_COL = true →
  drop_if_not_None (select_fold df TMP_SPLIT_COL i) = Returned (returned_fold df i).
Proof.
  intros Hcol. unfold returned_fold.
  destruct (select_fold df TMP_SPLIT_COL i) as [d|] eqn:E; [|reflexivity].
  assert (Hd : df_columns d = df_columns df).
  { unfold select_fold in E.
    destruct (filter _ _); inversion E; reflexivity. }
  simpl. unfold df_drop, contains. rewrite Hd.
  unfold contains in Hcol. rewrite Hcol. reflexivity.
Qed.

Lemma labelled_contains (df : DataFrame) (series : list value) :
  contains (labelled df series) TMP_SPLIT_COL = true.
Proof. unfold contains, labelled. simpl. apply bool_decide_eq_true_2. set_solver. Qed.

Lemma bind_run {A B : Type} (m : Py A) (k : A → Py B) (w w1 : World) (a : A) :
  m w = (Returned a, w1) → (m ≫= k) w = k a w1.
Proof. intros H. unfold mbind, Py_bind. rewrite H. reflexivity. Qed.

Lemma bind_raise {A B : Type} (m : Py A) (k : A → Py B) (w w1 : World) (e : exn) :
  m w = (Raised e, w1) → (m ≫= k) w = (Raised e, w1).
Proof. intros H. unfold mbind, Py_bind. rewrite H. reflexivity. Qed.

Lemma setitem_run (series : list value) (w : World) :
  length series = len (w_df w) →
  setitem TMP_SPLIT_COL series w
  = (Returned (), mkWorld (labelled (w_df w) series) (w_rng w) (w_warnings w)).
Proof.
  intros Hlen. unfold setitem.
  rewrite (bind_run get_df _ w w (w_df w)) by reflexivity.
  unfold df_setitem. rewrite (decide_True _ _ Hlen). reflexivity.
Qed.

Lemma setitem_mismatch (series : list value) (w : World) :
  length series ≠ len (w_df w) →
  setitem TMP_SPLIT_COL series w
  = (Raised (ValueError "Length of values does not match length of index"), w).
Proof.
  intros Hlen. unfold setitem.
  rewrite (bind_run get_df _ w w (w_df w)) by reflexivity.
  unfold df_setitem. rewrite (decide_False _ _ Hlen). reflexivity.
Qed.

(** When the series is as long as the frame, [_split_on_series] returns the
    three folds without the scratch column and leaves the caller's frame
    labelled. *)
Lemma split_on_series_run (series : list value) (w : World) :
  length series = len (w_df w) →
  _split_on_series series w
  = (Returned (returned_fold (labelled (w_df w) series) 0,
               returned_fold (labelled (w_df w) series) 1,
               returned_fold (labelled (w_df w) series) 2),
     mkWorld (labelled (w_df w) series) (w_rng w) (w_warnings w)).
Proof.
  intros Hlen. unfold _split_on_series.
  rewrite (bind_run _ _ _ _ _ (setitem_run series w Hlen)).
  set (w1 := mkWorld (labelled (w_df w) series) (w_rng w) (w_warnings w)).
  rewrite (bind_run get_df _ w1 w1 (labelled (w_df w) series)) by reflexivity.
  unfold split_dataset_ttv.
  unfold mbind, Py_bind, lift.
  rewrite !drop_selected_fold by apply labelled_contains.
  reflexivity.
Qed.

Lemma split_on_series_returned (series : list value) (w w' : World) (folds : Folds) :
  _split_on_series series w = (Returned folds, w') →
  length series = len (w_df w)
  ∧ folds = (returned_fold (labelled (w_df w) series) 0,
             returned_fold (labelled (w_df w) series) 1,
             returned_fold (labelled (w_df w) series) 2)
  ∧ w' = mkWorld (labelled (w_df w) series) (w_rng w) (w_warnings w).
Proof.
  intros H. destruct (decide (length series = len (w_df w))) as [Hlen|Hlen].
  - rewrite (split_on_series_run series w Hlen) in H. inversion H. auto.
  - exfalso. revert H. unfold _split_on_series.
    rewrite (bind_raise _ _ _ _ _ (setitem_mismatch series w Hlen)). discriminate.
Qed.

Lemma returned_fold_clean (df : DataFrame) (i : Z) (d : DataFrame) :
  returned_fold df i = Some d →
  contains d TMP_SPLIT_COL = false
  ∧ ∀ r, r ∈ df_rows d → row_cells r !! TMP_SPLIT_COL = None.
Proof.
  unfold returned_fold. destruct (select_fold df TMP_SPLIT_COL i) as [d0|]; [|discriminate].
  intros H. inversion H. subst d. split.
  - unfold contains. simpl. apply bool_decide_eq_false_2.
    rewrite elem_of_difference, elem_of_singleton. intros [_ Hne]. exact (Hne eq_refl).
  - simpl. intros r Hr. apply list_elem_of_fmap in Hr as (r0 & -> & _).
    simpl. apply lookup_delete_eq.
Qed.

Lemma RandomSplitter_split_df (self : Splitter) (backend : Backend) (random_seed : Z) :
  preserves w_df (RandomSplitter_split self backend random_seed).
Proof. unfold RandomSplitter_split, set_random_seed. frame. Qed.

(** What a labelled run leaves behind, for any series. *)
Lemma split_on_series_effect (series : list value) (w w' : World) (f0 f1 f2 : option DataFrame) :
  _split_on_series series w = (Returned (f0, f1, f2), w') →
  df_setitem (w_df w) TMP_SPLIT_COL series = Returned (w_df w')
  ∧ contains (w_df w') TMP_SPLIT_COL = true
  ∧ ∀ f d, f ∈ [f0; f1; f2] → f = Some d →
      contains d TMP_SPLIT_COL = false
      ∧ ∀ r, r ∈ df_rows d → row_cells r !! TMP_SPLIT_COL = None.
Proof.
  intros H. apply split_on_series_returned in H as (Hlen & Hfolds & ->).
  inversion Hfolds. subst. clear Hfolds. simpl. split; [|split].
  - unfold df_setitem. rewrite (decide_True _ _ Hlen). reflexivity.
  - apply labelled_contains.
  - intros f d Hf Hd.
    rewrite !elem_of_cons in Hf. destruct Hf as [->|[->|[->|Hf]]].
    + exact (returned_fold_clean _ _ _ Hd).
    + exact (returned_fold_clean _ _ _ Hd).
    + exact (returned_fold_clean _ _ _ Hd).
    + apply elem_of_nil in Hf. destruct Hf.
Qed.

(** C3, counterexample: after [FixedSplitter.split] has returned, the caller's
    dataframe, which had no scratch column, has one. *)
Lemma fixed_split_leaves_scratch_column :
  (∃ folds, (split (FixedSplitter "split") example_backend 42 example_world).1
            = Returned folds)
  ∧ contains (w_df example_world) TMP_SPLIT_COL = false
  ∧ contains (w_df (split (FixedSplitter "split") example_backend 42 example_world).2)
             TMP_SPLIT_COL = true.
Proof.
  split; [|split].
  - eexists. vm_compute. reflexivity.
  - vm_compute. reflexivity.
  - vm_compute. reflexivity.
Qed.

(** C3, amended: whenever [split] returns, the two splitters that use the
    scratch column, [FixedSplitter] and [StratifySplitter], return datasets
    without it, in their column names and in every row, and leave the
    caller's dataframe with the assignment [df[TMP_SPLIT_COL] = series]
    applied, the scratch column still there.  [RandomSplitter] uses no
    scratch column: it leaves the caller's dataframe as it was, and on a
    non-partitioned backend each returned dataset has the columns of the
    input, no more and no fewer.  [DatetimeSplitter.split] does not
    return. *)
Theorem split_scratch_column
    (self : Splitter) (backend : Backend) (random_seed : Z) (w w' : World)
    (f0 f1 f2 : option DataFrame) :
  split self backend random_seed w = (Returned (f0, f1, f2), w') →
  match self with
  | RandomSplitter _ =>
      w_df w' = w_df w
      ∧ (backend_contract backend → partitioned backend = false →
         ∀ f, f ∈ [f0; f1; f2] →
           ∃ d, f = Some d ∧ df_columns d = df_columns (w_df w))
  | FixedSplitter _ | StratifySplitter _ _ =>
      (∃ series, df_setitem (w_df w) TMP_SPLIT_COL series = Returned (w_df w'))
      ∧ contains (w_df w') TMP_SPLIT_COL = true
      ∧ ∀ f d, f ∈ [f0; f1; f2] → f = Some d →
          contains d TMP_SPLIT_COL = false
          ∧ ∀ r, r ∈ df_rows d → row_cells r !! TMP_SPLIT_COL = None
  | DatetimeSplitter _ _ _ _ => False
  end.
Proof.
  intros H. destruct self as [p|column|column p|column p fmt fill]; simpl in H.
  - split.
    { pose proof (RandomSplitter_split_df (RandomSplitter p) backend random_seed w) as Hdf.
      rewrite H in Hdf. exact Hdf. }
    intros Hc Hpart f Hf. unfold RandomSplitter_split in H.
    apply bind_returned in H as (u & w1 & Hseed & H).
    inversion Hseed. subst w1. clear Hseed.
    apply bind_returned in H as (df & w1 & Hget & H).
    inversion Hget. subst w1 df. clear Hget. cbn [w_df] in H.
    apply bind_returned in H as (probabilities & w1 & _ & H).
    rewrite Hpart in H.
    apply bind_returned in H as (q0 & w2 & _ & H).
    apply bind_returned in H as (q1 & w3 & _ & H).
    inversion H. subst.
    rewrite !elem_of_cons in Hf. destruct Hf as [->|[->|[->|Hf]]];
      [| | |apply elem_of_nil in Hf; destruct Hf];
      (eexists; split; [reflexivity|]; apply (sample_columns backend Hc)).
  - unfold FixedSplitter_split in H.
    apply bind_returned in H as (df & w1 & Hget & H).
    inversion Hget. subst w1 df. clear Hget.
    apply bind_returned in H as (col & w1 & Hcol & H).
    apply lift_returned in Hcol as [_ ->].
    apply bind_returned in H as (series & w1 & Hser & H).
    apply lift_returned in Hser as [_ ->].
    apply split_on_series_effect in H as (Hset & Hcontains & Hfolds).
    split; [exists series; exact Hset|]. split; assumption.
  - unfold StratifySplitter_split in H.
    destruct (partitioned backend); [discriminate H|].
    apply bind_returned in H as (labels & w1 & Hlab & H).
    pose proof (stratify_labels_preserves w_df (StratifySplitter column p)
                  backend random_seed put_rng_df w) as Hdf.
    rewrite Hlab in Hdf. simpl in Hdf.
    apply split_on_series_effect in H as (Hset & Hcontains & Hfolds).
    rewrite Hdf in Hset.
    split; [eexists; exact Hset|]. split; assumption.
  - discriminate H.
Qed.

Lemma split_scratch_column_witness :
  ∃ f0 f1 f2 w',
    split (FixedSplitter "split") example_backend 42 example_world
    = (Returned (f0, f1, f2), w')
    ∧ (∃ series, df_setitem (w_df example_world) TMP_SPLIT_COL series
                 = Returned (w_df w'))
    ∧ contains (w_df w') TMP_SPLIT_COL = true
    ∧ ∀ f d, f ∈ [f0; f1; f2] → f = Some d →
        contains d TMP_SPLIT_COL = false
        ∧ ∀ r, r ∈ df_rows d → row_cells r !! TMP_SPLIT_COL = None.
Proof.
  destruct (split (FixedSplitter "split") example_backend 42 example_world)
    as [[[[f0 f1] f2]|e] w'] eqn:E.
  - exists f0, f1, f2, w'. split; [reflexivity|].
    exact (split_scratch_column (FixedSplitter "split") example_backend 42
             example_world w' f0 f1 f2 E).
  - vm_compute in E. discriminate E.
Defined.

(** * Further properties of the code *)

(** ** [list_to_date_str] beyond nine-element lists *)

(** A list is never handed on unchanged: with eight components or more it is
    rebuilt from components 0, 1, 2, 5, 6 and 7, whatever its length; with
    fewer it makes the call raise [IndexError]. *)
Theorem list_to_date_str_any_list (l : list scalar) :
  ((8 ≤ length l)%nat →
   ∃ x0 x1 x2 x5 x6 x7,
     l !! 0%nat = Some x0 ∧ l !! 1%nat = Some x1 ∧ l !! 2%nat = Some x2
     ∧ l !! 5%nat = Some x5 ∧ l !! 6%nat = Some x6 ∧ l !! 7%nat = Some x7
     ∧ list_to_date_str (VList l)
       = Returned (VScalar (SStr
           (py_str x0 +:+ "-" +:+ py_str x1 +:+ "-" +:+ py_str x2 +:+ " "
            +:+ py_str x5 +:+ ":" +:+ py_str x6 +:+ ":" +:+ py_str x7))))
  ∧ ((length l < 8)%nat →
     list_to_date_str (VList l) = Raised (IndexError "list index out of range")).
Proof.
  split.
  - intros Hlen.
    destruct l as [|x0 [|x1 [|x2 [|x3 [|x4 [|x5 [|x6 [|x7 l]]]]]]]];
      simpl in Hlen; try lia.
    exists x0, x1, x2, x5, x6, x7. repeat split; reflexivity.
  - intros Hlen.
    destruct l as [|x0 [|x1 [|x2 [|x3 [|x4 [|x5 [|x6 [|x7 l]]]]]]]];
      simpl in Hlen; try lia; reflexivity.
Qed.

Lemma list_to_date_str_any_list_witness :
  list_to_date_str (VList [SInt 2020; SInt 1; SInt 15])
  = Raised (IndexError "list index out of range")
  ∧ ∃ x0 x1 x2 x5 x6 x7,
      [SInt 2020; SInt 1; SInt 15; SInt 2; SInt 15; SInt 10; SInt 30; SInt 0]
        !! 0%nat = Some x0
      ∧ [SInt 2020; SInt 1; SInt 15; SInt 2; SInt 15; SInt 10; SInt 30; SInt 0]
          !! 1%nat = Some x1
      ∧ [SInt 2020; SInt 1; SInt 15; SInt 2; SInt 15; SInt 10; SInt 30; SInt 0]
          !! 2%nat = Some x2
      ∧ [SInt 2020; SInt 1; SInt 15; SInt 2; SInt 15; SInt 10; SInt 30; SInt 0]
          !! 5%nat = Some x5
      ∧ [SInt 2020; SInt 1; SInt 15; SInt 2; SInt 15; SInt 10; SInt 30; SInt 0]
          !! 6%nat = Some x6
      ∧ [SInt 2020; SInt 1; SInt 15; SInt 2; SInt 15; SInt 10; SInt 30; SInt 0]
          !! 7%nat = Some x7
      ∧ list_to_date_str
          (VList [SInt 2020; SInt 1; SInt 15; SInt 2; SInt 15; SInt 10; SInt 30; SInt 0])
        = Returned (VScalar (SStr
            (py_str x0 +:+ "-" +:+ py_str x1 +:+ "-" +:+ py_str x2 +:+ " "
             +:+ py_str x5 +:+ ":" +:+ py_str x6 +:+ ":" +:+ py_str x7))).
Proof.
  split.
  - apply (proj2 (list_to_date_str_any_list [SInt 2020; SInt 1; SInt 15])).
    simpl. lia.
  - apply (proj1 (list_to_date_str_any_list
             [SInt 2020; SInt 1; SInt 15; SInt 2; SInt 15; SInt 10; SInt 30; SInt 0])).
    simpl. lia.
Defined.

(** A string passes through unchanged exactly when its length is not nine. *)
Theorem list_to_date_str_string_unchanged (s : string) :
  list_to_date_str (VScalar (SStr s)) = Returned (VScalar (SStr s))
  ↔ String.length s ≠ 9%nat.
Proof.
  split.
  - intros H Hlen.
    destruct s as [|c0 [|c1 [|c2 [|c3 [|c4 [|c5 [|c6 [|c7 [|c8 [|c9 s]]]]]]]]]];
      simpl in Hlen; try discriminate Hlen.
    apply (f_equal (λ o, match o with
                         | Returned (VScalar (SStr t)) => String.length t
                         | _ => 0%nat
                         end)) in H.
    simpl in H. discriminate H.
  - apply list_to_date_str_other_length.
Qed.

(** ** [has_split] outside the three fold indices *)

(** With three probabilities, an index outside [-3, 3) makes [has_split]
    raise [IndexError], and a negative index in range counts from the end:
    [has_split(-1)] is [has_split(2)]. *)
Theorem has_split_index_bounds (self : Splitter) (p0 p1 p2 : Q) (i : Z) :
  getattr self "probabilities" = Returned (AProbs [p0; p1; p2]) →
  (i < -3 ∨ 3 ≤ i → has_split self i = Raised (IndexError "index out of range"))
  ∧ (-3 ≤ i < 0 → has_split self i = has_split self (i + 3)).
Proof.
  intros Hattr.
  assert (Hdisp : ∀ j, has_split self j = probabilities_has_split self j).
  { destruct self; try reflexivity. discriminate Hattr. }
  assert (Hrun : ∀ j, probabilities_has_split self j
                      = p ← py_index [p0; p1; p2] j; Returned (Qpositive p)).
  { intros j. unfold probabilities_has_split, getattr_probs. rewrite Hattr. reflexivity. }
  split.
  - intros Hout. rewrite Hdisp, Hrun. unfold py_index. simpl length.
    destruct (Z.ltb_spec i 0) as [Hneg|Hpos].
    + destruct (Z.leb_spec 0 (i + Z.of_nat 3)) as [?|_]; [lia|]. reflexivity.
    + destruct (Z.leb_spec 0 i) as [_|?]; [|lia].
      destruct (Z.ltb_spec i (Z.of_nat 3)) as [?|_]; [lia|]. reflexivity.
  - intros Hin. rewrite !Hdisp, !Hrun.
    assert (Hcases : i = -3 ∨ i = -2 ∨ i = -1) by lia.
    destruct Hcases as [->|[->| ->]]; reflexivity.
Qed.

Lemma has_split_index_bounds_witness :
  has_split (RandomSplitter DEFAULT_PROBABILITIES) 3
  = Raised (IndexError "index out of range")
  ∧ has_split (RandomSplitter DEFAULT_PROBABILITIES) (-1)
    = has_split (RandomSplitter DEFAULT_PROBABILITIES) (-1 + 3).
Proof.
  split.
  - apply (proj1 (has_split_index_bounds (RandomSplitter DEFAULT_PROBABILITIES)
                    (double (7 # 10)) (double (1 # 10)) (double (2 # 10)) 3 eq_refl)).
    right. lia.
  - apply (proj2 (has_split_index_bounds (RandomSplitter DEFAULT_PROBABILITIES)
                    (double (7 # 10)) (double (1 # 10)) (double (2 # 10)) (-1) eq_refl)).
    lia.
Defined.

(** ** [get_splitter] and [split_dataset] on the registry *)

Lemma split_registry_lookup (name : string) (cls : SplitterClass) :
  split_registry !! name = Some cls ↔
  (name = "random" ∧ cls = RandomSplitterClass)
  ∨ (name = "fixed" ∧ cls = FixedSplitterClass)
  ∨ (name = "stratify" ∧ cls = StratifySplitterClass)
  ∨ (name = "datetime" ∧ cls = DatetimeSplitterClass).
Proof.
  unfold split_registry.
  rewrite !lookup_insert, lookup_singleton.
  repeat case_decide; subst; split; intros Hlookup;
    repeat match goal with
           | H : _ ∨ _ |- _ => destruct H
           | H : _ ∧ _ |- _ => destruct H
           | H : Some _ = Some _ |- _ => inversion H; clear H; subst
           end;
    try discriminate; try congruence; auto 10.
Qed.

(** [get_splitter] raises in one situation only: the type names the stratify
    or the datetime splitter and no column is given.  What it raises then is
    [TypeError]. *)
Theorem get_splitter_raises_iff (kwargs : Kwargs) (e : exn) :
  get_splitter kwargs = Raised e ↔
  e = missing_column
  ∧ kw_column kwargs = None
  ∧ (kw_type kwargs = Some "stratify" ∨ kw_type kwargs = Some "datetime").
Proof.
  unfold get_splitter, split_registry_get.
  destruct (kw_type kwargs) as [name|] eqn:Hty.
  - destruct (split_registry !! name) as [cls|] eqn:Hreg.
    + apply split_registry_lookup in Hreg
        as [[-> ->]|[[-> ->]|[[-> ->]|[-> ->]]]]; simpl;
        destruct (kw_column kwargs); simpl; split;
          try discriminate; try (intros (_ & ? & _); discriminate);
          try (intros (_ & _ & [?|?]); discriminate).
      * intros H. inversion H. auto.
      * intros (-> & _). reflexivity.
      * intros H. inversion H. auto.
      * intros (-> & _). reflexivity.
    + split; [discriminate|].
      intros (_ & _ & [H|H]); inversion H; subst name; discriminate Hreg.
  - simpl. split; [discriminate|]. intros (_ & _ & [?|?]); discriminate.
Qed.

(** Through [split_dataset], an unregistered split type does not surface as
    an invalid-type error: the exception object [get_splitter] hands back is
    asked for its [split] method, and the call raises [AttributeError].  No
    warning is emitted and nothing is changed. *)
Theorem split_dataset_unregistered_type
    (global_preprocessing_parameters : gmap string param) (kwargs : Kwargs)
    (name : string) (backend : Backend) (random_seed : Z) (w : World) :
  global_preprocessing_parameters !! "split" = Some (PDict kwargs) →
  kw_type kwargs = Some name →
  split_registry !! name = None →
  split_dataset global_preprocessing_parameters backend random_seed w
  = (Raised (AttributeError "'ValueError' object has no attribute 'split'"), w).
Proof.
  intros Hsplit Hty Hreg. unfold split_dataset. rewrite Hsplit.
  rewrite (bind_run get_df _ w w (w_df w)) by reflexivity.
  simpl negb. simpl andb. cbv iota.
  rewrite (bind_run (mret ()) _ w w ()) by reflexivity.
  rewrite (bind_run (lift (Returned kwargs)) _ w w kwargs) by reflexivity.
  rewrite (get_splitter_unregistered kwargs name Hty Hreg).
  reflexivity.
Qed.

Lemma split_dataset_unregistered_type_witness :
  split_dataset {[ "split" := PDict (mkKwargs (Some "bogus") None None None None) ]}
    example_backend 42 example_world
  = (Raised (AttributeError "'ValueError' object has no attribute 'split'"),
     example_world).
Proof.
  apply (split_dataset_unregistered_type _
           (mkKwargs (Some "bogus") None None None None) "bogus");
    reflexivity.
Defined.

(** ** [validate] *)

Lemma dict_getitem_Some {V : Type} (d : gmap string V) (key : string) (v : V) :
  d !! key = Some v → dict_getitem d key = Returned v.
Proof. intros H. unfold dict_getitem. rewrite H. reflexivity. Qed.

Lemma dict_getitem_None {V : Type} (d : gmap string V) (key : string) :
  d !! key = None → dict_getitem d key = Raised (KeyError key).
Proof. intros H. unfold dict_getitem. rewrite H. reflexivity. Qed.

Section validate_properties.

Variables (COLUMN TYPE BINARY CATEGORY DATE : string).

Lemma mapM_dict_getitem (features : list Feature) :
  (∀ f, f ∈ features → is_Some (f !! COLUMN)) →
  ∃ names, mapM (λ f, dict_getitem f COLUMN) features = Returned names
           ∧ ∀ v, v ∈ names ↔ ∃ f, f ∈ features ∧ f !! COLUMN = Some v.
Proof.
  induction features as [|f features IH]; intros Hall.
  - exists []. split; [reflexivity|].
    intros v. split.
    + intros Hv. apply elem_of_nil in Hv. destruct Hv.
    + intros (f & Hf & _). apply elem_of_nil in Hf. destruct Hf.
  - destruct (Hall f) as [v0 Hv0]; [left|].
    destruct IH as (names & Hnames & Hmem).
    { intros g Hg. apply Hall. right. exact Hg. }
    exists (v0 :: names). split.
    + simpl. rewrite (dict_getitem_Some f COLUMN v0 Hv0). simpl.
      rewrite Hnames. reflexivity.
    + intros v. rewrite elem_of_cons, Hmem. split.
      * intros [->|(g & Hg & Hgv)].
        -- exists f. split; [left|exact Hv0].
        -- exists g. split; [right; exact Hg|exact Hgv].
      * intros (g & Hg & Hgv). apply elem_of_cons in Hg as [->|Hg].
        -- left. congruence.
        -- right. exists g. split; assumption.
Qed.

Lemma validate_column_type_undeclared
    (allowed : list string) (not_among_features must_be : string → string)
    (self : Splitter) (column : string) (config : gmap string (list Feature))
    (input_features output_features : list Feature) :
  getattr self "column" = Returned (AStr column) →
  config !! "input_features" = Some input_features →
  config !! "output_features" = Some output_features →
  (∀ f, f ∈ input_features ++ output_features →
        ∃ v, f !! COLUMN = Some v ∧ v ≠ VScalar (SStr column)) →
  validate_column_type COLUMN TYPE allowed not_among_features must_be self config
  = Returned [not_among_features column].
Proof.
  intros Hattr Hin Hout Hother. unfold validate_column_type.
  rewrite (dict_getitem_Some _ _ _ Hin), (dict_getitem_Some _ _ _ Hout). simpl.
  destruct (mapM_dict_getitem (input_features ++ output_features))
    as (names & -> & Hmem).
  { intros f Hf. destruct (Hother f Hf) as (v & Hv & _). exists v. exact Hv. }
  simpl. unfold getattr_str. rewrite Hattr. simpl.
  rewrite bool_decide_eq_false_2; [reflexivity|].
  rewrite Hmem. intros (f & Hf & Hcol).
  destruct (Hother f Hf) as (v & Hv & Hne). congruence.
Qed.

Lemma features_of_column_first (column : string) (pre post : list Feature) (f : Feature) :
  (∀ g, g ∈ pre → g !! COLUMN ≠ Some (VScalar (SStr column))) →
  f !! COLUMN = Some (VScalar (SStr column)) →
  ∃ rest, features_of_column COLUMN column (pre ++ f :: post) = f :: rest.
Proof.
  intros Hpre Hf. unfold features_of_column.
  rewrite filter_app, filter_cons_True by exact Hf.
  assert (Hnil : filter (λ g : Feature, g !! COLUMN = Some (VScalar (SStr column))) pre = []).
  { induction pre as [|g pre IH]; [reflexivity|].
    rewrite filter_cons_False; [|apply Hpre; left].
    apply IH. intros g' Hg'. apply Hpre. right. exact Hg'. }
  rewrite Hnil. eexists. reflexivity.
Qed.

Lemma validate_column_type_declared
    (allowed : list string) (not_among_features must_be : string → string)
    (self : Splitter) (column : string) (config : gmap string (list Feature))
    (input_features output_features pre post : list Feature) (f : Feature) (type : value) :
  getattr self "column" = Returned (AStr column) →
  config !! "input_features" = Some input_features →
  config !! "output_features" = Some output_features →
  input_features ++ output_features = pre ++ f :: post →
  (∀ g, g ∈ pre → ∃ v, g !! COLUMN = Some v ∧ v ≠ VScalar (SStr column)) →
  f !! COLUMN = Some (VScalar (SStr column)) →
  (∀ g, g ∈ post → is_Some (g !! COLUMN)) →
  f !! TYPE = Some type →
  validate_column_type COLUMN TYPE allowed not_among_features must_be self config
  = if bool_decide (type ∈ (λ t, VScalar (SStr t)) <$> allowed)
    then Returned [] else Raised (ValueError (must_be column)).
Proof.
  intros Hattr Hin Hout Hsplit Hpre Hf Hpost Hty.
  unfold validate_column_type.
  rewrite (dict_getitem_Some _ _ _ Hin), (dict_getitem_Some _ _ _ Hout). simpl.
  rewrite Hsplit.
  destruct (mapM_dict_getitem (pre ++ f :: post)) as (names & -> & Hmem).
  { intros g Hg. apply elem_of_app in Hg as [Hg|Hg].
    - destruct (Hpre g Hg) as (v & Hv & _). exists v. exact Hv.
    - apply elem_of_cons in Hg as [->|Hg]; [eexists; exact Hf|apply Hpost, Hg]. }
  simpl. unfold getattr_str. rewrite Hattr. simpl.
  rewrite bool_decide_eq_true_2.
  2:{ apply Hmem. exists f. split; [|exact Hf].
      apply elem_of_app. right. left. }
  simpl.
  destruct (features_of_column_first column pre post f) as (rest & ->); [|exact Hf|].
  { intros g Hg. destruct (Hpre g Hg) as (v & Hv & Hne). congruence. }
  change (py_index (f :: rest) 0) with (Returned f). simpl.
  rewrite (dict_getitem_Some _ _ _ Hty). simpl.
  destruct (bool_decide _); reflexivity.
Qed.

(** A split column that no feature declares passes validation: the stratify
    and the datetime splitter each log one message at level info and raise
    nothing. *)
Theorem validate_undeclared_column
    (column : string) (probabilities : list Q) (datetime_format : option string)
    (fill_value : string) (config : gmap string (list Feature))
    (input_features output_features : list Feature) :
  config !! "input_features" = Some input_features →
  config !! "output_features" = Some output_features →
  (∀ f, f ∈ input_features ++ output_features →
        ∃ v, f !! COLUMN = Some v ∧ v ≠ VScalar (SStr column)) →
  validate COLUMN TYPE BINARY CATEGORY DATE (StratifySplitter column probabilities) config
  = Returned [stratify_not_among_features column]
  ∧ validate COLUMN TYPE BINARY CATEGORY DATE
      (DatetimeSplitter column probabilities datetime_format fill_value) config
    = Returned [datetime_not_among_features column].
Proof.
  intros Hin Hout Hother. split; simpl.
  - exact (validate_column_type_undeclared _ _ _
             (StratifySplitter column probabilities) column config _ _
             eq_refl Hin Hout Hother).
  - exact (validate_column_type_undeclared _ _ _
             (DatetimeSplitter column probabilities datetime_format fill_value)
             column config _ _ eq_refl Hin Hout Hother).
Qed.

(** When the split column is declared, the first declaration decides, input
    features before output features: its type alone is checked, against
    binary and category for the stratify splitter and against date for the
    datetime splitter; later declarations of the same column are not looked
    at.  A type that is not accepted raises [ValueError]; an accepted one
    logs nothing. *)
Theorem validate_first_declaration
    (column : string) (probabilities : list Q) (datetime_format : option string)
    (fill_value : string) (config : gmap string (list Feature))
    (input_features output_features pre post : list Feature) (f : Feature) (type : value) :
  config !! "input_features" = Some input_features →
  config !! "output_features" = Some output_features →
  input_features ++ output_features = pre ++ f :: post →
  (∀ g, g ∈ pre → ∃ v, g !! COLUMN = Some v ∧ v ≠ VScalar (SStr column)) →
  f !! COLUMN = Some (VScalar (SStr column)) →
  (∀ g, g ∈ post → is_Some (g !! COLUMN)) →
  f !! TYPE = Some type →
  validate COLUMN TYPE BINARY CATEGORY DATE (StratifySplitter column probabilities) config
  = (if bool_decide (type = VScalar (SStr BINARY) ∨ type = VScalar (SStr CATEGORY))
     then Returned [] else Raised (ValueError (stratify_must_be column)))
  ∧ validate COLUMN TYPE BINARY CATEGORY DATE
      (DatetimeSplitter column probabilities datetime_format fill_value) config
    = (if bool_decide (type = VScalar (SStr DATE))
       then Returned [] else Raised (ValueError (datetime_must_be column))).
Proof.
  intros Hin Hout Hsplit Hpre Hf Hpost Hty. split; simpl.
  - unfold StratifySplitter_validate.
    rewrite (validate_column_type_declared _ _ _
               (StratifySplitter column probabilities) column config _ _ pre post f type
               eq_refl Hin Hout Hsplit Hpre Hf Hpost Hty).
    apply (f_equal (λ b : bool, if b then _ else _)).
    apply bool_decide_ext. simpl. rewrite !elem_of_cons.
    split; [intros [?|[?|H]]|intros [?|?]]; auto.
    apply elem_of_nil in H. destruct H.
  - unfold DatetimeSplitter_validate.
    rewrite (validate_column_type_declared _ _ _
               (DatetimeSplitter column probabilities datetime_format fill_value)
               column config _ _ pre post f type
               eq_refl Hin Hout Hsplit Hpre Hf Hpost Hty).
    apply (f_equal (λ b : bool, if b then _ else _)).
    apply bool_decide_ext. simpl. rewrite !elem_of_cons.
    split; [intros [?|H]|intros ?]; auto.
    apply elem_of_nil in H. destruct H.
Qed.

(** The random and the fixed splitter accept every configuration, also one
    without feature lists; the stratify and the datetime splitter raise
    [KeyError] for a configuration that lacks ["input_features"], and for one
    that has it but lacks ["output_features"]. *)
Theorem validate_missing_feature_lists
    (column : string) (probabilities : list Q) (datetime_format : option string)
    (fill_value : string) (config : gmap string (list Feature)) :
  validate COLUMN TYPE BINARY CATEGORY DATE (RandomSplitter probabilities) config
  = Returned []
  ∧ validate COLUMN TYPE BINARY CATEGORY DATE (FixedSplitter column) config = Returned []
  ∧ (config !! "input_features" = None →
     validate COLUMN TYPE BINARY CATEGORY DATE (StratifySplitter column probabilities) config
     = Raised (KeyError "input_features")
     ∧ validate COLUMN TYPE BINARY CATEGORY DATE
         (DatetimeSplitter column probabilities datetime_format fill_value) config
       = Raised (KeyError "input_features"))
  ∧ (is_Some (config !! "input_features") → config !! "output_features" = None →
     validate COLUMN TYPE BINARY CATEGORY DATE (StratifySplitter column probabilities) config
     = Raised (KeyError "output_features")
     ∧ validate COLUMN TYPE BINARY CATEGORY DATE
         (DatetimeSplitter column probabilities datetime_format fill_value) config
       = Raised (KeyError "output_features")).
Proof.
  split; [reflexivity|]. split; [reflexivity|]. split.
  - intros Hin. simpl.
    unfold StratifySplitter_validate, DatetimeSplitter_validate, validate_column_type.
    rewrite (dict_getitem_None _ _ Hin). split; reflexivity.
  - intros [ins Hin] Hout. simpl.
    unfold StratifySplitter_validate, DatetimeSplitter_validate, validate_column_type.
    rewrite (dict_getitem_Some _ _ _ Hin), (dict_getitem_None _ _ Hout).
    split; reflexivity.
Qed.

End validate_properties.

(** A configuration that declares column ["y"] twice, as a text input and as
    a category output, and one that declares only column ["x"]. *)
Lemma validate_first_declaration_witness :
  validate "column" "type" "binary" "category" "date"
    (StratifySplitter "y" DEFAULT_PROBABILITIES)
    {[ "input_features" :=
         [ {[ "column" := VScalar (SStr "y"); "type" := VScalar (SStr "text") ]} ];
       "output_features" :=
         [ {[ "column" := VScalar (SStr "y"); "type" := VScalar (SStr "category") ]} ] ]}
  = Raised (ValueError (stratify_must_be "y")).
Proof.
  refine (proj1 (validate_first_declaration "column" "type" "binary" "category" "date"
                   "y" DEFAULT_PROBABILITIES None "" _
                   [ {[ "column" := VScalar (SStr "y"); "type" := VScalar (SStr "text") ]} ]
                   [ {[ "column" := VScalar (SStr "y");
                        "type" := VScalar (SStr "category") ]} ]
                   []
                   [ {[ "column" := VScalar (SStr "y");
                        "type" := VScalar (SStr "category") ]} ]
                   {[ "column" := VScalar (SStr "y"); "type" := VScalar (SStr "text") ]}
                   (VScalar (SStr "text")) _ _ _ _ _ _ _)); try reflexivity.
  - intros g Hg. apply elem_of_nil in Hg. destruct Hg.
  - intros g Hg. apply list_elem_of_singleton in Hg. subst g.
    eexists. reflexivity.
Defined.

Lemma validate_undeclared_column_witness :
  validate "column" "type" "binary" "category" "date"
    (StratifySplitter "y" DEFAULT_PROBABILITIES)
    {[ "input_features" :=
         [ {[ "column" := VScalar (SStr "x"); "type" := VScalar (SStr "text") ]} ];
       "output_features" := [] ]}
  = Returned [stratify_not_among_features "y"].
Proof.
  refine (proj1 (validate_undeclared_column "column" "type" "binary" "category" "date"
                   "y" DEFAULT_PROBABILITIES None "" _
                   [ {[ "column" := VScalar (SStr "x"); "type" := VScalar (SStr "text") ]} ]
                   [] _ _ _)); try reflexivity.
  intros f Hf. apply list_elem_of_singleton in Hf. subst f.
  exists (VScalar (SStr "x")). split; [reflexivity|discriminate].
Defined.

Lemma validate_missing_feature_lists_witness :
  validate "column" "type" "binary" "category" "date"
    (StratifySplitter "y" DEFAULT_PROBABILITIES) ∅
  = Raised (KeyError "input_features")
  ∧ validate "column" "type" "binary" "category" "date"
      (DatetimeSplitter "y" DEFAULT_PROBABILITIES None "") {[ "input_features" := [] ]}
    = Raised (KeyError "output_features").
Proof.
  split.
  - apply (proj1 (proj2 (proj2 (validate_missing_feature_lists
             "column" "type" "binary" "category" "date"
             "y" DEFAULT_PROBABILITIES None "" ∅)))).
    reflexivity.
  - apply (proj2 (proj2 (proj2 (validate_missing_feature_lists
             "column" "type" "binary" "category" "date"
             "y" DEFAULT_PROBABILITIES None "" {[ "input_features" := [] ]})))).
    + exists []. reflexivity.
    + reflexivity.
Defined.

(** ** [required_columns] and [split] *)

Lemma df_getitem_missing (df : DataFrame) (name : string) :
  contains df name = false → df_getitem df name = Raised (KeyError name).
Proof. intros H. unfold df_getitem. rewrite H. reflexivity. Qed.

(** When a column the splitter requires is missing from the dataset, [split]
    raises before the caller's dataframe is touched and without a warning:
    [KeyError] naming the column for the fixed splitter and, on a
    non-partitioned backend, for the stratify splitter; the datetime splitter
    raises its [AttributeError] as on every input. *)
Theorem split_missing_required_column
    (self : Splitter) (backend : Backend) (random_seed : Z) (w : World)
    (columns : list string) (c : string) :
  required_columns self = Returned columns →
  c ∈ columns →
  contains (w_df w) c = false →
  partitioned backend = false →
  ∃ e w', split self backend random_seed w = (Raised e, w')
          ∧ w_df w' = w_df w
          ∧ w_warnings w' = w_warnings w
          ∧ (e = KeyError c
             ∨ (class_name self = "DatetimeSplitter"
                ∧ e = AttributeError "'DatetimeSplitter' object has no attribute 'col'")).
Proof.
  intros Hreq Hc Hmissing Hpart.
  destruct self as [p|column|column p|column p fmt fill]; simpl in Hreq;
    inversion Hreq; subst columns; clear Hreq.
  - apply elem_of_nil in Hc. destruct Hc.
  - apply list_elem_of_singleton in Hc. subst c.
    exists (KeyError column), w. split; [|auto].
    simpl. unfold FixedSplitter_split.
    rewrite (bind_run get_df _ w w (w_df w)) by reflexivity.
    rewrite (bind_run (lift (getattr_str (FixedSplitter column) "column")) _ w w column)
      by reflexivity.
    rewrite (df_getitem_missing _ _ Hmissing). reflexivity.
  - apply list_elem_of_singleton in Hc. subst c.
    exists (KeyError column), (mkWorld (w_df w) (mkRng random_seed 0) (w_warnings w)).
    split; [|auto].
    simpl. unfold StratifySplitter_split. rewrite Hpart.
    apply bind_raise. unfold stratify_labels, set_random_seed.
    rewrite (bind_run (put_rng (mkRng random_seed 0)) _ w
               (mkWorld (w_df w) (mkRng random_seed 0) (w_warnings w)) ())
      by reflexivity.
    rewrite (bind_run get_df _ _ _ (w_df w)) by reflexivity.
    rewrite (bind_run (lift (getattr_str (StratifySplitter column p) "column")) _ _ _ column)
      by reflexivity.
    rewrite (df_getitem_missing _ _ Hmissing). reflexivity.
  - exists (AttributeError "'DatetimeSplitter' object has no attribute 'col'"), w.
    split; [reflexivity|]. auto.
Qed.

Lemma split_missing_required_column_witness :
  ∃ e w', split (StratifySplitter "label" DEFAULT_PROBABILITIES) example_backend 42
            example_world = (Raised e, w')
          ∧ w_df w' = w_df example_world
          ∧ w_warnings w' = w_warnings example_world
          ∧ (e = KeyError "label"
             ∨ (class_name (StratifySplitter "label" DEFAULT_PROBABILITIES)
                = "DatetimeSplitter"
                ∧ e = AttributeError "'DatetimeSplitter' object has no attribute 'col'")).
Proof.
  apply (split_missing_required_column (StratifySplitter "label" DEFAULT_PROBABILITIES)
           example_backend 42 example_world ["label"] "label").
  - reflexivity.
  - apply list_elem_of_singleton. reflexivity.
  - reflexivity.
  - reflexivity.
Defined.

(** ** [RandomSplitter.split] on a non-partitioned backend *)

(** The run itself: the generator is seeded, only the first two
    probabilities are read, and the shuffled frame is cut at
    [d1 = int(p0 * n)] and [d2 = d1 + int(p1 * n)], float products. *)
Lemma RandomSplitter_split_run
    (backend : Backend) (probabilities : list Q) (p0 p1 : Q) (random_seed : Z) (w : World) :
  partitioned backend = false →
  probabilities !! 0%nat = Some p0 →
  probabilities !! 1%nat = Some p1 →
  split (RandomSplitter probabilities) backend random_seed w
  = (Returned (np_split (sample backend (w_df w) random_seed)
                 (py_int (float_mul p0 (float_of_int (Z.of_nat (len (w_df w))))))
                 (py_int (float_mul p0 (float_of_int (Z.of_nat (len (w_df w)))))
                  + py_int (float_mul p1 (float_of_int (Z.of_nat (len (w_df w))))))),
     mkWorld (w_df w) (mkRng random_seed 0) (w_warnings w)).
Proof.
  intros Hpart H0 H1.
  unfold split, RandomSplitter_split, set_random_seed.
  rewrite (bind_run (put_rng (mkRng random_seed 0)) _ w
             (mkWorld (w_df w) (mkRng random_seed 0) (w_warnings w)) ())
    by reflexivity.
  rewrite (bind_run get_df _ _ _ (w_df w)) by reflexivity.
  rewrite (bind_run (lift (getattr_probs (RandomSplitter probabilities) "probabilities"))
             _ _ _ probabilities) by reflexivity.
  rewrite Hpart.
  rewrite (bind_run (lift (py_index probabilities 0)) _ _ _ p0)
    by (unfold lift; rewrite (py_index_lookup probabilities 0 p0); [reflexivity|lia|exact H0]).
  rewrite (bind_run (lift (py_index probabilities 1)) _ _ _ p1)
    by (unfold lift; rewrite (py_index_lookup probabilities 1 p1); [reflexivity|lia|exact H1]).
  reflexivity.
Qed.







Lemma py_int_zero (p : Q) (n : Z) :
  (0 <= p)%Q → Qpositive p = false → py_int (float_mul p (float_of_int n)) = 0.
Proof.
  intros Hge Hpos. unfold Qpositive in Hpos. apply negb_false_iff in Hpos.
  apply Qle_bool_iff in Hpos.
  assert (Hp : (p == 0)%Q) by (apply Qle_antisym; assumption).
  unfold float_mul. rewrite round_double_zero; [reflexivity|].
  rewrite Hp. apply Qmult_0_l.
Qed.

Lemma py_slice_empty {A : Type} (l : list A) (d : Z) : py_slice l d d = [].
Proof. unfold py_slice. rewrite Z.sub_diag. reflexivity. Qed.

(** For the train and the validation fold, [has_split] saying no is kept by
    [split]: with non-negative probabilities, a fold whose [has_split] is
    false comes back without rows. *)
Theorem RandomSplitter_no_split_no_rows
    (backend : Backend) (p0 p1 p2 : Q) (random_seed : Z) (w w' : World)
    (train val test : option DataFrame) :
  partitioned backend = false →
  (0 <= p0)%Q → (0 <= p1)%Q →
  split (RandomSplitter [p0; p1; p2]) backend random_seed w
  = (Returned (train, val, test), w') →
  (has_split (RandomSplitter [p0; p1; p2]) 0 = Returned false → fold_rows train = [])
  ∧ (has_split (RandomSplitter [p0; p1; p2]) 1 = Returned false → fold_rows val = []).
Proof.
  intros Hpart Hp0 Hp1 Hrun.
  rewrite (RandomSplitter_split_run backend [p0; p1; p2] p0 p1 random_seed w
             Hpart eq_refl eq_refl) in Hrun.
  inversion Hrun. subst. clear Hrun. split.
  - intros Hno. inversion Hno as [Hpos].
    rewrite (py_int_zero p0 _ Hp0 Hpos). simpl. apply py_slice_empty.
  - intros Hno. inversion Hno as [Hpos].
    rewrite (py_int_zero p1 _ Hp1 Hpos). simpl. rewrite Z.add_0_r.
    apply py_slice_empty.
Qed.

Lemma RandomSplitter_no_split_no_rows_witness :
  ∃ train val test w',
    split (RandomSplitter [0; 0; 1]%Q) example_backend 42 example_world
    = (Returned (train, val, test), w')
    ∧ fold_rows train = [] ∧ fold_rows val = [].
Proof.
  destruct (split (RandomSplitter [0; 0; 1]%Q) example_backend 42 example_world)
    as [[[[train val] test]|e] w'] eqn:E.
  - exists train, val, test, w'. split; [reflexivity|].
    assert (Hp : (0 <= 0)%Q) by (vm_compute; discriminate).
    destruct (RandomSplitter_no_split_no_rows example_backend 0 0 1 42
                example_world w' train val test eq_refl Hp Hp E) as [H0 H1].
    split; [apply H0|apply H1]; reflexivity.
  - vm_compute in E. discriminate E.
Defined.

(** ** [StratifySplitter.split]: the labelling loop *)

Lemma elem_of_unique_from (seen l : list value) (x : value) :
  x ∈ unique_from seen l ↔ x ∈ l ∧ x ∉ seen.
Proof.
  revert seen. induction l as [|y l IH]; intros seen; simpl.
  - split.
    + intros H. apply elem_of_nil in H. destruct H.
    + intros [H _]. apply elem_of_nil in H. destruct H.
  - case_bool_decide as Hy.
    + rewrite IH, elem_of_cons. split.
      * intros [H1 H2]. auto.
      * intros [[->|H1] H2]; [contradiction|auto].
    + rewrite elem_of_cons, IH, not_elem_of_cons, elem_of_cons. split.
      * intros [->|[H1 [H2 H3]]]; auto.
      * intros [[->|H1] H2]; [left; reflexivity|].
        destruct (decide (x = y)) as [->|Hne]; [left; reflexivity|].
        right. auto.
Qed.

Lemma elem_of_unique (l : list value) (x : value) : x ∈ unique l ↔ x ∈ l.
Proof.
  unfold unique. rewrite elem_of_unique_from. split; [intros [H _]; exact H|].
  intros H. split; [exact H|]. apply not_elem_of_nil.
Qed.

Lemma NoDup_unique_from (seen l : list value) : NoDup (unique_from seen l).
Proof.
  revert seen. induction l as [|y l IH]; intros seen; simpl.
  - apply NoDup_nil_2.
  - case_bool_decide as Hy; [apply IH|].
    apply NoDup_cons_2; [|apply IH].
    rewrite elem_of_unique_from, not_elem_of_cons. intros [_ [Hne _]].
    exact (Hne eq_refl).
Qed.

(** [series == val] holds at an entry when the entry is [val] and is not
    missing. *)
Lemma series_eq_true (x v : value) :
  series_eq x v = true ↔ x = v ∧ is_missing x = false.
Proof.
  unfold series_eq. rewrite !andb_true_iff, !negb_true_iff, bool_decide_eq_true.
  split.
  - intros [[Hx _] Heq]. auto.
  - intros [-> Hx]. auto.
Qed.

Lemma series_eq_missing (x v : value) : is_missing x = true → series_eq x v = false.
Proof. intros Hx. unfold series_eq. rewrite Hx. reflexivity. Qed.

Lemma series_eq_refl (x : value) : is_missing x = false → series_eq x x = true.
Proof. intros Hx. apply series_eq_true. auto. Qed.

Lemma series_eq_ne (x v : value) : x ≠ v → series_eq x v = false.
Proof.
  intros Hne. destruct (series_eq x v) eqn:E; [|reflexivity].
  apply series_eq_true in E as [E _]. contradiction.
Qed.

Lemma elem_of_labels_where (v : value) (labels : list Z) (series : list value) (i : Z) :
  i ∈ labels_where v labels series
  ↔ ∃ j, labels !! j = Some i ∧ series !! j = Some v ∧ is_missing v = false.
Proof.
  revert series. induction labels as [|i0 labels IH]; intros series.
  - simpl. split.
    + intros H. apply elem_of_nil in H. destruct H.
    + intros (j & Hj & _). rewrite lookup_nil in Hj. discriminate Hj.
  - destruct series as [|x series].
    + simpl. split.
      * intros H. apply elem_of_nil in H. destruct H.
      * intros (j & _ & Hj & _). rewrite lookup_nil in Hj. discriminate Hj.
    + cbn [labels_where]. destruct (series_eq x v) eqn:Hx.
      * apply series_eq_true in Hx as [-> Hx].
        rewrite elem_of_cons, IH. split.
        -- intros [->|(j & H1 & H2 & H3)]; [exists 0%nat|exists (S j)]; auto.
        -- intros ([|j] & H1 & H2 & H3); simpl in H1, H2.
           ++ left. congruence.
           ++ right. exists j. auto.
      * rewrite IH. split.
        -- intros (j & H1 & H2 & H3). exists (S j). auto.
        -- intros ([|j] & H1 & H2 & H3); simpl in H1, H2.
           ++ inversion H2. subst x. rewrite series_eq_refl in Hx by exact H3.
              discriminate Hx.
           ++ exists j. auto.
Qed.

Lemma labels_where_sublist (v : value) (labels : list Z) (series : list value) :
  labels_where v labels series `sublist_of` labels.
Proof.
  revert series. induction labels as [|i0 labels IH]; intros series.
  - simpl. apply sublist_nil.
  - destruct series as [|x series]; [apply sublist_nil_l|].
    cbn [labels_where]. destruct (series_eq x v).
    + apply sublist_skip, IH.
    + apply sublist_cons, IH.
Qed.

Lemma labels_where_disjoint (v v' : value) (labels : list Z) (series : list value) (i : Z) :
  NoDup labels → v ≠ v' →
  i ∈ labels_where v labels series → i ∉ labels_where v' labels series.
Proof.
  intros Hnd Hne H H'.
  apply elem_of_labels_where in H as (j & Hj & Hv & _).
  apply elem_of_labels_where in H' as (j' & Hj' & Hv' & _).
  assert (j = j') by exact (NoDup_lookup _ _ _ _ Hnd Hj Hj'). subst j'.
  congruence.
Qed.

(** The strata of the values that are not missing partition the rows that
    hold such a value; a missing value has an empty stratum. *)
Lemma indicator_zero (x : value) (vals : list value) :
  (∀ v, v ∈ vals → series_eq x v = false) →
  sum_list ((λ v, if series_eq x v then 1 else 0)%nat <$> vals) = 0%nat.
Proof.
  intros Hall. rewrite (sum_list_fmap_same 0); [lia|].
  apply Forall_forall. intros v Hv. rewrite (Hall v Hv). reflexivity.
Qed.

Lemma indicator_one (x : value) (vals : list value) :
  is_missing x = false → NoDup vals → x ∈ vals →
  sum_list ((λ v, if series_eq x v then 1 else 0)%nat <$> vals) = 1%nat.
Proof.
  intros Hx. induction vals as [|y vals IH]; intros Hnd Hin.
  - apply elem_of_nil in Hin. destruct Hin.
  - apply NoDup_cons in Hnd as [Hy Hnd].
    rewrite fmap_cons. cbn [sum_list_with]. unfold id at 1.
    destruct (decide (x = y)) as [->|Hne].
    + rewrite series_eq_refl by exact Hx.
      rewrite indicator_zero; [reflexivity|].
      intros v Hv. apply series_eq_ne. intros ->. exact (Hy Hv).
    + rewrite series_eq_ne by exact Hne.
      apply elem_of_cons in Hin as [Hin|Hin]; [contradiction|].
      rewrite IH by assumption. reflexivity.
Qed.

Lemma stratum_sizes_cons (vals : list value) (i : Z) (labels : list Z)
    (x : value) (series : list value) :
  sum_list ((λ v, length (labels_where v (i :: labels) (x :: series))) <$> vals)
  = (sum_list ((λ v, if series_eq x v then 1 else 0)%nat <$> vals)
     + sum_list ((λ v, length (labels_where v labels series)) <$> vals))%nat.
Proof.
  induction vals as [|y vals IH]; [reflexivity|].
  rewrite !fmap_cons. cbn [sum_list_with]. rewrite IH. unfold id.
  cbn [labels_where]. destruct (series_eq x y); cbn [length]; lia.
Qed.

Lemma stratum_sizes_total (vals : list value) (labels : list Z) (series : list value) :
  NoDup vals → (∀ x, x ∈ series → x ∈ vals) → length labels = length series →
  sum_list ((λ v, length (labels_where v labels series)) <$> vals)
  = length (filter (λ x, is_missing x = false) series).
Proof.
  intros Hnd. revert series.
  induction labels as [|i labels IH]; intros series Hall Hlen.
  - destruct series; [|discriminate Hlen].
    rewrite (sum_list_fmap_same 0); [simpl; lia|].
    apply Forall_forall. intros v _. reflexivity.
  - destruct series as [|x series]; [discriminate Hlen|].
    rewrite stratum_sizes_cons.
    rewrite IH; [|intros y Hy; apply Hall; right; exact Hy|simpl in Hlen; lia].
    destruct (is_missing x) eqn:Hx.
    + rewrite indicator_zero by (intros v _; apply series_eq_missing, Hx).
      rewrite filter_cons_False by (rewrite Hx; discriminate). reflexivity.
    + rewrite indicator_one; [|exact Hx|exact Hnd|apply Hall; left].
      rewrite filter_cons_True by exact Hx. reflexivity.
Qed.

(** One pass of the loop, when [choice] accepts the probabilities: the
    generator serves as many draws as the stratum has rows. *)
Lemma stratify_step_run (backend : Backend) (probabilities : list Q)
    (labels : list Z) (series : list value) (a : list Z) (val : value) (w : World)
    (draws : list Z) :
  random_choice backend (w_rng w) 3 (length (labels_where val labels series)) probabilities
  = Returned draws →
  stratify_step backend probabilities labels series a val w
  = (ndarray_setitem a (labels_where val labels series) draws,
     mkWorld (w_df w)
       (mkRng (rng_seed (w_rng w))
          (rng_consumed (w_rng w) + length (labels_where val labels series)))
       (w_warnings w)).
Proof.
  intros Hdraw. unfold stratify_step.
  rewrite (bind_run get_rng _ w w (w_rng w)) by reflexivity.
  rewrite (bind_run (lift _) _ w w draws) by (unfold lift; rewrite Hdraw; reflexivity).
  reflexivity.
Qed.

(** And when [choice] rejects them: the pass raises what [choice] raises,
    with nothing written. *)
Lemma stratify_step_rejected (backend : Backend) (probabilities : list Q)
    (labels : list Z) (series : list value) (a : list Z) (val : value) (w : World)
    (e : exn) :
  random_choice backend (w_rng w) 3 (length (labels_where val labels series)) probabilities
  = Raised e →
  stratify_step backend probabilities labels series a val w = (Raised e, w).
Proof.
  intros Hdraw. unfold stratify_step.
  rewrite (bind_run get_rng _ w w (w_rng w)) by reflexivity.
  apply bind_raise. unfold lift. rewrite Hdraw. reflexivity.
Qed.

Lemma ndarray_set_pairs_length (idx vals : list Z) :
  ∀ a a', ndarray_set_pairs a idx vals = Returned a' → length a' = length a.
Proof.
  revert vals. induction idx as [|i idx IH]; intros vals a a' H.
  - simpl in H. inversion H. reflexivity.
  - destruct vals as [|z vals]; [simpl in H; inversion H; reflexivity|].
    simpl in H. unfold ndarray_set in H.
    destruct (_ && _); [|discriminate H]. simpl in H.
    rewrite (IH _ _ _ H). apply length_insert.
Qed.

Lemma ndarray_setitem_length (idx vals a a' : list Z) :
  ndarray_setitem a idx vals = Returned a' → length a' = length a.
Proof.
  unfold ndarray_setitem. case_decide; [|discriminate].
  apply ndarray_set_pairs_length.
Qed.

Lemma stratify_loop_returned (backend : Backend) (probabilities : list Q)
    (labels : list Z) (series : list value) (vals : list value) :
  ∀ a w a' w',
    stratify_loop backend probabilities labels series a vals w = (Returned a', w') →
    length a' = length a
    ∧ w_rng w'
      = mkRng (rng_seed (w_rng w))
          (rng_consumed (w_rng w)
           + sum_list ((λ v, length (labels_where v labels series)) <$> vals)).
Proof.
  induction vals as [|val vals IH]; intros a w a' w' H.
  - simpl in H. inversion H. subst. split; [reflexivity|].
    destruct (w_rng w'). simpl. f_equal. lia.
  - simpl in H. apply bind_returned in H as (a1 & w1 & Hstep & Hloop).
    destruct (random_choice backend (w_rng w) 3
                (length (labels_where val labels series)) probabilities)
      as [draws|e] eqn:Hdraw.
    + rewrite (stratify_step_run _ _ _ _ _ _ _ _ Hdraw) in Hstep.
      inversion Hstep as [[Hset Hw1]]. clear Hstep.
      apply ndarray_setitem_length in Hset.
      apply IH in Hloop as [Hlen Hrng]. split; [congruence|].
      rewrite Hrng, <- Hw1. cbn [w_rng rng_seed rng_consumed].
      rewrite fmap_cons. cbn [sum_list_with]. unfold id. f_equal. lia.
    + rewrite (stratify_step_rejected _ _ _ _ _ _ _ _ Hdraw) in Hstep.
      discriminate Hstep.
Qed.

Lemma stratify_labels_run (backend : Backend) (column : string) (probabilities : list Q)
    (random_seed : Z) (w : World) (series : list value) :
  df_getitem (w_df w) column = Returned series →
  stratify_labels (StratifySplitter column probabilities) backend random_seed w
  = stratify_loop backend probabilities (index (w_df w)) series
      (replicate (len (w_df w)) 0) (unique series)
      (mkWorld (w_df w) (mkRng random_seed 0) (w_warnings w)).
Proof.
  intros Hcol. unfold stratify_labels, set_random_seed.
  rewrite (bind_run (put_rng (mkRng random_seed 0)) _ w
             (mkWorld (w_df w) (mkRng random_seed 0) (w_warnings w)) ())
    by reflexivity.
  rewrite (bind_run get_df _ _ _ (w_df w)) by reflexivity.
  rewrite (bind_run (lift (getattr_str (StratifySplitter column probabilities) "column"))
             _ _ _ column) by reflexivity.
  cbn [w_df].
  rewrite (bind_run (lift (df_getitem (w_df w) column)) _ _ _ series)
    by (unfold lift; rewrite Hcol; reflexivity).
  rewrite (bind_run (lift (getattr_probs (StratifySplitter column probabilities)
                             "probabilities")) _ _ _ probabilities) by reflexivity.
  reflexivity.
Qed.

Lemma df_getitem_length (df : DataFrame) (column : string) (series : list value) :
  df_getitem df column = Returned series → length series = len df.
Proof.
  unfold df_getitem. destruct (contains df column); [|discriminate].
  intros H. inversion H. apply length_fmap.
Qed.

Lemma index_length (df : DataFrame) : length (index df) = len df.
Proof. apply length_fmap. Qed.

(** Whenever the labelling returns, it has made one draw for each row whose
    stratify value is not missing, and none for the others: the array has
    one entry per row, the generator, seeded with [random_seed], has served
    as many draws as there are rows with a value in the column, and neither
    the dataset nor the warnings have changed. *)
Theorem stratify_labels_one_draw_per_value
    (backend : Backend) (column : string) (probabilities : list Q) (random_seed : Z)
    (w w' : World) (a : list Z) :
  stratify_labels (StratifySplitter column probabilities) backend random_seed w
  = (Returned a, w') →
  length a = len (w_df w)
  ∧ w_rng w'
    = mkRng random_seed
        (length (filter (λ x, is_missing x = false) (cell column <$> df_rows (w_df w))))
  ∧ w_df w' = w_df w
  ∧ w_warnings w' = w_warnings w.
Proof.
  intros H.
  pose proof (stratify_labels_preserves w_df (StratifySplitter column probabilities)
                backend random_seed put_rng_df w) as Hdf.
  pose proof (stratify_labels_preserves w_warnings (StratifySplitter column probabilities)
                backend random_seed put_rng_warnings w) as Hwarn.
  rewrite H in Hdf, Hwarn. simpl in Hdf, Hwarn.
  destruct (df_getitem (w_df w) column) as [series|e] eqn:Hcol.
  - rewrite (stratify_labels_run _ _ _ _ _ _ Hcol) in H.
    apply stratify_loop_returned in H as [Hlen Hrng].
    rewrite length_replicate in Hlen. cbn [w_rng rng_seed rng_consumed] in Hrng.
    rewrite stratum_sizes_total in Hrng.
    + assert (Hs : series = cell column <$> df_rows (w_df w)).
      { unfold df_getitem in Hcol. destruct (contains _ _); [|discriminate Hcol].
        inversion Hcol. reflexivity. }
      rewrite <- Hs. auto.
    + apply NoDup_unique_from.
    + intros x Hx. apply elem_of_unique. exact Hx.
    + rewrite index_length. symmetry. exact (df_getitem_length _ _ _ Hcol).
  - exfalso. revert H. unfold stratify_labels, set_random_seed.
    rewrite (bind_run (put_rng (mkRng random_seed 0)) _ w
               (mkWorld (w_df w) (mkRng random_seed 0) (w_warnings w)) ())
      by reflexivity.
    rewrite (bind_run get_df _ _ _ (w_df w)) by reflexivity.
    rewrite (bind_run (lift (getattr_str (StratifySplitter column probabilities) "column"))
               _ _ _ column) by reflexivity.
    cbn [w_df].
    rewrite (bind_raise (lift (df_getitem (w_df w) column)) _ _ _ e)
      by (unfold lift; rewrite Hcol; reflexivity).
    discriminate.
Qed.

Lemma example_choice_default (g : RngState) (n : nat) :
  ∃ draws, random_choice example_backend g 3 n DEFAULT_PROBABILITIES = Returned draws.
Proof.
  simpl. unfold example_choice.
  assert (E : example_choice_check 3 DEFAULT_PROBABILITIES = None)
    by (vm_compute; reflexivity).
  rewrite E. eexists. reflexivity.
Qed.

Lemma stratify_labels_one_draw_per_value_witness :
  ∃ a w',
    stratify_labels (StratifySplitter "y" DEFAULT_PROBABILITIES) example_backend 42
      (mkWorld example_df_missing (mkRng 0 0) []) = (Returned a, w')
    ∧ length a = 3%nat
    ∧ w_rng w' = mkRng 42 2
    ∧ w_df w' = example_df_missing
    ∧ w_warnings w' = [].
Proof.
  destruct (stratify_labels (StratifySplitter "y" DEFAULT_PROBABILITIES)
              example_backend 42 (mkWorld example_df_missing (mkRng 0 0) []))
    as [[a|e] w'] eqn:E.
  - exists a, w'. split; [reflexivity|].
    exact (stratify_labels_one_draw_per_value example_backend "y" DEFAULT_PROBABILITIES
             42 (mkWorld example_df_missing (mkRng 0 0) []) w' a E).
  - vm_compute in E. discriminate E.
Defined.

(** *** Index labels outside the array *)

Lemma ndarray_set_pairs_cases (idx vals : list Z) :
  ∀ a, length idx = length vals →
  (Forall (λ i, - Z.of_nat (length a) ≤ i < Z.of_nat (length a)) idx
   ∧ ∃ a', ndarray_set_pairs a idx vals = Returned a' ∧ length a' = length a)
  ∨ (∃ i, i ∈ idx ∧ ¬ (- Z.of_nat (length a) ≤ i < Z.of_nat (length a))
          ∧ ndarray_set_pairs a idx vals = Raised (index_out_of_bounds i (length a))).
Proof.
  revert vals. induction idx as [|i idx IH]; intros vals a Hlen.
  - left. split; [apply Forall_nil_2|]. exists a. split; reflexivity.
  - destruct vals as [|z vals]; [discriminate Hlen|].
    simpl. unfold ndarray_set.
    destruct ((0 <=? (if i <? 0 then i + Z.of_nat (length a) else i))
              && ((if i <? 0 then i + Z.of_nat (length a) else i) <? Z.of_nat (length a)))
      eqn:Hc.
    + assert (Hi : - Z.of_nat (length a) ≤ i < Z.of_nat (length a)).
      { apply andb_true_iff in Hc as [H1 H2].
        apply Z.leb_le in H1. apply Z.ltb_lt in H2.
        destruct (Z.ltb_spec i 0); lia. }
      simpl.
      destruct (IH vals (<[Z.to_nat (if i <? 0 then i + Z.of_nat (length a) else i) := z]> a))
        as [[Hall (a' & Hrun & Hlen')]|(i' & Hi' & Hout & Hrun)].
      * simpl in Hlen. lia.
      * rewrite length_insert in Hall, Hlen'. left. split.
        -- apply Forall_cons_2; assumption.
        -- exists a'. split; assumption.
      * rewrite length_insert in Hout, Hrun. right. exists i'.
        split; [right; exact Hi'|]. split; assumption.
    + right. exists i. split; [left|]. split; [|reflexivity].
      intros Hi. apply andb_false_iff in Hc as [H1|H2].
      * apply Z.leb_gt in H1. destruct (Z.ltb_spec i 0); lia.
      * apply Z.ltb_ge in H2. destruct (Z.ltb_spec i 0); lia.
Qed.

Lemma stratify_loop_cases (backend : Backend) (probabilities : list Q)
    (labels : list Z) (series : list value) (vals : list value) :
  backend_contract backend →
  (∀ g n, ∃ draws, random_choice backend g 3 n probabilities = Returned draws) →
  ∀ a w,
    ((∀ v, v ∈ vals →
        Forall (λ i, - Z.of_nat (length a) ≤ i < Z.of_nat (length a))
          (labels_where v labels series))
     ∧ ∃ a' w',
         stratify_loop backend probabilities labels series a vals w = (Returned a', w'))
    ∨ (∃ i w', i ∈ labels
         ∧ ¬ (- Z.of_nat (length a) ≤ i < Z.of_nat (length a))
         ∧ stratify_loop backend probabilities labels series a vals w
           = (Raised (index_out_of_bounds i (length a)), w')).
Proof.
  intros Hc Hacc. induction vals as [|val vals IH]; intros a w.
  - left. split.
    + intros v Hv. apply elem_of_nil in Hv. destruct Hv.
    + exists a, w. reflexivity.
  - simpl.
    destruct (Hacc (w_rng w) (length (labels_where val labels series)))
      as [draws Hdraw].
    pose proof (random_choice_length backend Hc _ _ _ _ _ Hdraw) as Hdlen.
    destruct (ndarray_set_pairs_cases (labels_where val labels series) draws a)
      as [[Hall (a1 & Hrun & Hlen1)]|(i & Hi & Hout & Hrun)].
    + symmetry. exact Hdlen.
    + rewrite (bind_run _ _ w _ a1
                 ltac:(rewrite (stratify_step_run _ _ _ _ a _ _ _ Hdraw);
                       unfold ndarray_setitem;
                       rewrite decide_True by (symmetry; exact Hdlen);
                       rewrite Hrun; reflexivity)).
      match goal with
      | |- context [stratify_loop _ _ _ _ a1 vals ?w1] =>
          destruct (IH a1 w1) as [[Hall' (a' & w' & Hloop)]|(i & w' & Hi & Hout & Hloop)]
      end.
      * left. split.
        -- intros v Hv. apply elem_of_cons in Hv as [->|Hv]; [exact Hall|].
           rewrite <- Hlen1. apply Hall', Hv.
        -- exists a', w'. exact Hloop.
      * right. exists i, w'. rewrite <- Hlen1. auto.
    + right. exists i. eexists. split; [|split; [exact Hout|]].
      * eapply elem_of_sublist; [exact Hi|apply labels_where_sublist].
      * apply bind_raise. rewrite (stratify_step_run _ _ _ _ a _ _ _ Hdraw).
        unfold ndarray_setitem.
        rewrite decide_True by (symmetry; exact Hdlen).
        rewrite Hrun. reflexivity.
Qed.

(** [split[idx_list] = val_list] addresses the array by index label.  When
    [choice] accepts the probabilities and a row that has a stratify value
    carries an index label outside [-len(df), len(df)), as after rows were
    filtered out of a larger frame, the split raises numpy's [IndexError] for
    such a label; the caller's dataframe is untouched and no warning is
    emitted. *)
Theorem StratifySplitter_split_label_out_of_range
    (backend : Backend) (column : string) (probabilities : list Q) (random_seed : Z)
    (w : World) (r : Row) :
  backend_contract backend →
  partitioned backend = false →
  (∀ g n, ∃ draws, random_choice backend g 3 n probabilities = Returned draws) →
  contains (w_df w) column = true →
  r ∈ df_rows (w_df w) →
  is_missing (cell column r) = false →
  ¬ (- Z.of_nat (len (w_df w)) ≤ row_label r < Z.of_nat (len (w_df w))) →
  ∃ i w',
    i ∈ index (w_df w)
    ∧ ¬ (- Z.of_nat (len (w_df w)) ≤ i < Z.of_nat (len (w_df w)))
    ∧ split (StratifySplitter column probabilities) backend random_seed w
      = (Raised (index_out_of_bounds i (len (w_df w))), w')
    ∧ w_df w' = w_df w
    ∧ w_warnings w' = w_warnings w.
Proof.
  intros Hc Hpart Hacc Hcol Hr Hpresent Hout0.
  assert (Hseries : df_getitem (w_df w) column
                    = Returned (cell column <$> df_rows (w_df w)))
    by (unfold df_getitem; rewrite Hcol; reflexivity).
  set (series := cell column <$> df_rows (w_df w)) in *.
  pose proof (stratify_labels_preserves w_df (StratifySplitter column probabilities)
                backend random_seed put_rng_df w) as Hdf.
  pose proof (stratify_labels_preserves w_warnings (StratifySplitter column probabilities)
                backend random_seed put_rng_warnings w) as Hwarn.
  simpl. unfold StratifySplitter_split. rewrite Hpart.
  rewrite (stratify_labels_run backend _ _ _ _ _ Hseries) in Hdf, Hwarn.
  destruct (stratify_loop_cases backend probabilities (index (w_df w)) series
              (unique series) Hc Hacc (replicate (len (w_df w)) 0)
              (mkWorld (w_df w) (mkRng random_seed 0) (w_warnings w)))
    as [[Hall _]|(i & w' & Hi & Hout & Hloop)].
  - exfalso. rewrite length_replicate in Hall.
    apply list_elem_of_lookup_1 in Hr as [j Hj].
    assert (Hlabel : index (w_df w) !! j = Some (row_label r))
      by (unfold index; rewrite list_lookup_fmap, Hj; reflexivity).
    assert (Hv : series !! j = Some (cell column r))
      by (unfold series; rewrite list_lookup_fmap, Hj; reflexivity).
    assert (Hmem : row_label r ∈ labels_where (cell column r) (index (w_df w)) series)
      by (apply elem_of_labels_where; exists j; auto).
    assert (Hu : cell column r ∈ unique series)
      by (apply elem_of_unique; eapply list_elem_of_lookup_2, Hv).
    pose proof (proj1 (Forall_forall _ _) (Hall _ Hu) _ Hmem) as Hin.
    exact (Hout0 Hin).
  - rewrite length_replicate in Hout, Hloop.
    rewrite Hloop in Hdf, Hwarn. simpl in Hdf, Hwarn.
    exists i, w'. split; [exact Hi|]. split; [exact Hout|].
    split; [|split; assumption].
    apply bind_raise. rewrite (stratify_labels_run backend _ _ _ _ _ Hseries).
    exact Hloop.
Qed.

Lemma StratifySplitter_split_label_out_of_range_witness :
  ∃ i w',
    i ∈ [5; 7]
    ∧ ¬ (- 2 ≤ i < 2)
    ∧ split (StratifySplitter "split" DEFAULT_PROBABILITIES) example_backend 42
        (mkWorld (mkDataFrame {[ "split"; "A" ]} [example_row 5 0; example_row 7 1])
           (mkRng 0 0) [])
      = (Raised (index_out_of_bounds i 2), w')
    ∧ w_df w' = mkDataFrame {[ "split"; "A" ]} [example_row 5 0; example_row 7 1]
    ∧ w_warnings w' = [].
Proof.
  apply (StratifySplitter_split_label_out_of_range example_backend "split"
           DEFAULT_PROBABILITIES 42
           (mkWorld (mkDataFrame {[ "split"; "A" ]} [example_row 5 0; example_row 7 1])
              (mkRng 0 0) []) (example_row 5 0)).
  - exact example_backend_contract.
  - reflexivity.
  - exact example_choice_default.
  - reflexivity.
  - left.
  - reflexivity.
  - unfold len. simpl. lia.
Defined.

(** *** Where the draws are stored *)

Lemma ndarray_set_pairs_placement (idx draws : list Z) :
  ∀ a, NoDup idx → (∀ i, i ∈ idx → 0 ≤ i < Z.of_nat (length a)) →
  length idx = length draws →
  ∃ a', ndarray_set_pairs a idx draws = Returned a'
        ∧ length a' = length a
        ∧ (∀ k i, idx !! k = Some i → a' !! Z.to_nat i = draws !! k)
        ∧ (∀ i, 0 ≤ i → i ∉ idx → a' !! Z.to_nat i = a !! Z.to_nat i).
Proof.
  revert draws. induction idx as [|i idx IH]; intros draws a Hnd Hrange Hlen.
  - exists a. split; [reflexivity|]. split; [reflexivity|]. split; [|reflexivity].
    intros k i Hk. rewrite lookup_nil in Hk. discriminate Hk.
  - destruct draws as [|z draws]; [discriminate Hlen|].
    apply NoDup_cons in Hnd as [Hi Hnd].
    assert (Hir : 0 ≤ i < Z.of_nat (length a)) by (apply Hrange; left).
    simpl. unfold ndarray_set.
    destruct (Z.ltb_spec i 0) as [?|_]; [lia|].
    destruct (Z.leb_spec 0 i) as [_|?]; [|lia].
    destruct (Z.ltb_spec i (Z.of_nat (length a))) as [_|?]; [|lia].
    simpl.
    destruct (IH draws (<[Z.to_nat i := z]> a) Hnd)
      as (a' & Hrun & Hlen' & Hput & Hkeep).
    { intros i' Hi'. rewrite length_insert. apply Hrange. right. exact Hi'. }
    { simpl in Hlen. lia. }
    exists a'. split; [exact Hrun|].
    split; [rewrite Hlen'; apply length_insert|]. split.
    + intros [|k] i' Hk; simpl in Hk.
      * inversion Hk. subst i'. rewrite Hkeep by (lia || assumption).
        simpl. apply list_lookup_insert_eq. lia.
      * simpl. apply Hput. exact Hk.
    + intros i' Hpos Hnot. apply not_elem_of_cons in Hnot as [Hne Hnot].
      rewrite Hkeep by assumption. apply list_lookup_insert_ne. lia.
Qed.

Lemma stratify_loop_placement (backend : Backend) (probabilities : list Q)
    (labels : list Z) (series : list value) (vals : list value) :
  backend_contract backend →
  (∀ g n, ∃ draws, random_choice backend g 3 n probabilities = Returned draws) →
  NoDup labels →
  ∀ a w, NoDup vals →
  (∀ v i, v ∈ vals → i ∈ labels_where v labels series → 0 ≤ i < Z.of_nat (length a)) →
  ∃ a' w',
    stratify_loop backend probabilities labels series a vals w = (Returned a', w')
    ∧ length a' = length a
    ∧ (∀ v, v ∈ vals →
         ∃ g draws,
           rng_seed g = rng_seed (w_rng w)
           ∧ random_choice backend g 3 (length (labels_where v labels series))
               probabilities = Returned draws
           ∧ ∀ k i, labels_where v labels series !! k = Some i →
               a' !! Z.to_nat i = draws !! k)
    ∧ (∀ i, 0 ≤ i → (∀ v, v ∈ vals → i ∉ labels_where v labels series) →
         a' !! Z.to_nat i = a !! Z.to_nat i).
Proof.
  intros Hc Hacc Hnd. induction vals as [|val vals IH]; intros a w Hvals Hrange.
  - exists a, w. split; [reflexivity|]. split; [reflexivity|]. split; [|reflexivity].
    intros v Hv. apply elem_of_nil in Hv. destruct Hv.
  - apply NoDup_cons in Hvals as [Hval Hvals].
    destruct (Hacc (w_rng w) (length (labels_where val labels series)))
      as [draws Hdraw].
    pose proof (random_choice_length backend Hc _ _ _ _ _ Hdraw) as Hdlen.
    destruct (ndarray_set_pairs_placement (labels_where val labels series) draws a)
      as (a1 & Hrun & Hlen1 & Hput & Hkeep).
    { eapply sublist_NoDup; [exact Hnd|apply labels_where_sublist]. }
    { intros i Hi. apply (Hrange val i); [left|exact Hi]. }
    { symmetry. exact Hdlen. }
    simpl.
    rewrite (bind_run _ _ w _ a1
               ltac:(rewrite (stratify_step_run _ _ _ _ a _ _ _ Hdraw);
                     unfold ndarray_setitem;
                     rewrite decide_True by (symmetry; exact Hdlen);
                     rewrite Hrun; reflexivity)).
    match goal with
    | |- context [stratify_loop _ _ _ _ a1 vals ?w1] =>
        destruct (IH a1 w1 Hvals) as (a' & w' & Hloop & Hlen' & Hstrata & Hkeep')
    end.
    { intros v i Hv Hi. rewrite Hlen1. apply (Hrange v i); [right; exact Hv|exact Hi]. }
    exists a', w'. split; [exact Hloop|]. split; [congruence|]. split.
    + intros v Hv. apply elem_of_cons in Hv as [->|Hv].
      * exists (w_rng w), draws. split; [reflexivity|]. split; [exact Hdraw|].
        intros k i Hk.
        assert (Hi : i ∈ labels_where val labels series)
          by (eapply list_elem_of_lookup_2, Hk).
        rewrite Hkeep'.
        -- apply Hput, Hk.
        -- apply (Hrange val i); [left|exact Hi].
        -- intros v' Hv'. apply (labels_where_disjoint val v'); [exact Hnd| |exact Hi].
           intros ->. exact (Hval Hv').
      * destruct (Hstrata v Hv) as (g & draws' & Hg & Hdraw' & Hplace).
        exists g, draws'. split; [exact Hg|]. split; [exact Hdraw'|exact Hplace].
    + intros i Hpos Hnot. rewrite Hkeep'.
      * apply Hkeep; [exact Hpos|]. apply Hnot. left.
      * exact Hpos.
      * intros v Hv. apply Hnot. right. exact Hv.
Qed.

(** When [choice] accepts the probabilities, the index labels are distinct
    and those of the rows that have a stratify value lie in [0, len(df)), the
    labelling returns, and it treats each stratum on its own: the rows
    holding the value [v] receive, in row order, the outcomes of one call
    [choice(3, size of the stratum, p=probabilities)] made on the generator
    seeded with [random_seed], the outcome for a row stored at the array
    position that the row's index label names.  A row whose stratify value is
    missing gets no draw: the array keeps its zero at the position the row's
    label names. *)
Theorem stratify_labels_per_stratum
    (backend : Backend) (column : string) (probabilities : list Q) (random_seed : Z)
    (w : World) (series : list value) :
  backend_contract backend →
  (∀ g n, ∃ draws, random_choice backend g 3 n probabilities = Returned draws) →
  NoDup (index (w_df w)) →
  df_getitem (w_df w) column = Returned series →
  (∀ j i x, index (w_df w) !! j = Some i → series !! j = Some x →
            is_missing x = false → 0 ≤ i < Z.of_nat (len (w_df w))) →
  ∃ a w',
    stratify_labels (StratifySplitter column probabilities) backend random_seed w
    = (Returned a, w')
    ∧ length a = len (w_df w)
    ∧ (∀ v, v ∈ series → is_missing v = false →
         ∃ g draws,
           rng_seed g = random_seed
           ∧ random_choice backend g 3
               (length (labels_where v (index (w_df w)) series)) probabilities
             = Returned draws
           ∧ ∀ k i, labels_where v (index (w_df w)) series !! k = Some i →
               a !! Z.to_nat i = draws !! k)
    ∧ (∀ j i x, index (w_df w) !! j = Some i → series !! j = Some x →
                is_missing x = true → 0 ≤ i < Z.of_nat (len (w_df w)) →
                a !! Z.to_nat i = Some 0).
Proof.
  intros Hc Hacc Hnd Hcol Hrange.
  rewrite (stratify_labels_run backend _ _ _ _ _ Hcol).
  destruct (stratify_loop_placement backend probabilities (index (w_df w)) series
              (unique series) Hc Hacc Hnd (replicate (len (w_df w)) 0)
              (mkWorld (w_df w) (mkRng random_seed 0) (w_warnings w)))
    as (a & w' & Hloop & Hlen & Hstrata & Hkeep).
  { apply NoDup_unique_from. }
  { intros v i _ Hi. rewrite length_replicate.
    apply elem_of_labels_where in Hi as (j & Hj & Hv & Hpresent).
    exact (Hrange j i v Hj Hv Hpresent). }
  exists a, w'. split; [exact Hloop|].
  split; [rewrite Hlen; apply length_replicate|]. split.
  - intros v Hv _. apply Hstrata, elem_of_unique, Hv.
  - intros j i x Hj Hx Hmissing Hi. rewrite Hkeep.
    + apply lookup_replicate_2. lia.
    + lia.
    + intros v _ Hmem.
      apply elem_of_labels_where in Hmem as (j' & Hj' & Hv' & Hpresent).
      assert (j' = j) by exact (NoDup_lookup _ _ _ _ Hnd Hj' Hj). subst j'.
      congruence.
Qed.

Lemma stratify_labels_per_stratum_witness :
  ∃ a w',
    stratify_labels (StratifySplitter "y" DEFAULT_PROBABILITIES) example_backend 42
      (mkWorld example_df_missing (mkRng 0 0) []) = (Returned a, w')
    ∧ length a = len example_df_missing
    ∧ (∀ v, v ∈ [VScalar (SStr "a"); VScalar SNone; VScalar (SStr "a")] →
         is_missing v = false →
         ∃ g draws,
           rng_seed g = 42
           ∧ random_choice example_backend g 3
               (length (labels_where v (index example_df_missing)
                          [VScalar (SStr "a"); VScalar SNone; VScalar (SStr "a")]))
               DEFAULT_PROBABILITIES
             = Returned draws
           ∧ ∀ k i,
               labels_where v (index example_df_missing)
                 [VScalar (SStr "a"); VScalar SNone; VScalar (SStr "a")] !! k = Some i →
               a !! Z.to_nat i = draws !! k)
    ∧ (∀ j i x, index example_df_missing !! j = Some i →
                [VScalar (SStr "a"); VScalar SNone; VScalar (SStr "a")] !! j = Some x →
                is_missing x = true → 0 ≤ i < Z.of_nat (len example_df_missing) →
                a !! Z.to_nat i = Some 0).
Proof.
  apply (stratify_labels_per_stratum example_backend "y" DEFAULT_PROBABILITIES 42
           (mkWorld example_df_missing (mkRng 0 0) [])
           [VScalar (SStr "a"); VScalar SNone; VScalar (SStr "a")]).
  - exact example_backend_contract.
  - exact example_choice_default.
  - apply (bool_decide_unpack _). vm_compute. exact I.
  - reflexivity.
  - intros [|[|[|j]]] i x Hi Hx Hpresent; simpl in Hi, Hx;
      inversion Hi; inversion Hx; subst; try discriminate Hpresent;
      unfold len; simpl; lia.
Defined.

(** *** Probabilities that [choice] does not accept *)

(** The probabilities are checked by numpy's [choice] only, at the first
    stratum: on a dataset with at least one row, when [choice] rejects the
    probabilities the split raises what [choice] raises, after seeding the
    generator and before anything is written; the caller's dataframe and the
    warnings are as they were. *)
Theorem StratifySplitter_split_rejected_probabilities
    (backend : Backend) (column : string) (probabilities : list Q) (random_seed : Z)
    (w : World) (e : exn) :
  partitioned backend = false →
  contains (w_df w) column = true →
  df_rows (w_df w) ≠ [] →
  (∀ g n, random_choice backend g 3 n probabilities = Raised e) →
  split (StratifySplitter column probabilities) backend random_seed w
  = (Raised e, mkWorld (w_df w) (mkRng random_seed 0) (w_warnings w)).
Proof.
  intros Hpart Hcol Hrows Hrej.
  assert (Hseries : df_getitem (w_df w) column
                    = Returned (cell column <$> df_rows (w_df w)))
    by (unfold df_getitem; rewrite Hcol; reflexivity).
  simpl. unfold StratifySplitter_split. rewrite Hpart.
  apply bind_raise. rewrite (stratify_labels_run backend _ _ _ _ _ Hseries).
  destruct (df_rows (w_df w)) as [|r rows]; [contradiction|].
  rewrite fmap_cons. unfold unique. cbn [unique_from].
  rewrite bool_decide_eq_false_2 by apply not_elem_of_nil.
  cbn [stratify_loop]. apply bind_raise.
  apply stratify_step_rejected, Hrej.
Qed.

Lemma StratifySplitter_split_rejected_probabilities_witness :
  split (StratifySplitter "split" [1; 1; 1]%Q) example_backend 42 example_world
  = (Raised (ValueError "probabilities do not sum to 1"),
     mkWorld (w_df example_world) (mkRng 42 0) (w_warnings example_world)).
Proof.
  apply (StratifySplitter_split_rejected_probabilities example_backend "split"
           [1; 1; 1]%Q 42 example_world (ValueError "probabilities do not sum to 1")).
  - reflexivity.
  - reflexivity.
  - discriminate.
  - intros g n. reflexivity.
Defined.

(** ** The caller's dataset *)

Lemma preserves_of_df {X A : Type} (h : DataFrame → X) (m : Py A) :
  preserves w_df m → preserves (λ w, h (w_df w)) m.
Proof. intros H w. simpl. rewrite H. reflexivity. Qed.

Lemma drop_cell_set_cell (rows : list Row) :
  ∀ series : list value,
    length series = length rows →
    drop_cell TMP_SPLIT_COL <$> zip_with (set_cell TMP_SPLIT_COL) rows series
    = drop_cell TMP_SPLIT_COL <$> rows.
Proof.
  induction rows as [|r rows IH]; intros [|v series] Hlen; try discriminate Hlen.
  - reflexivity.
  - simpl. rewrite IH by (simpl in Hlen; lia). f_equal.
    unfold drop_cell, set_cell. simpl. f_equal. apply delete_insert_eq.
Qed.

Lemma setitem_unscratched (series : list value) :
  preserves (λ w, unscratched (w_df w)) (setitem TMP_SPLIT_COL series).
Proof.
  intros w. unfold setitem.
  rewrite (bind_run get_df _ w w (w_df w)) by reflexivity.
  unfold df_setitem. case_decide as Hlen; [|reflexivity].
  simpl. unfold unscratched. simpl. f_equal.
  - apply set_eq. intros x.
    rewrite !elem_of_difference, elem_of_union, !elem_of_singleton. tauto.
  - apply drop_cell_set_cell. exact Hlen.
Qed.

Lemma split_on_series_unscratched (series : list value) :
  preserves (λ w, unscratched (w_df w)) (_split_on_series series).
Proof.
  unfold _split_on_series.
  apply preserves_bind; [apply setitem_unscratched|intros _].
  apply preserves_bind; [frame|intros df].
  destruct (split_dataset_ttv df TMP_SPLIT_COL) as [[f0 f1] f2]. frame.
Qed.

Lemma split_unscratched (self : Splitter) (backend : Backend) (random_seed : Z) :
  preserves (λ w, unscratched (w_df w)) (split self backend random_seed).
Proof.
  destruct self as [p|column|column p|column p fmt fill]; simpl.
  - apply preserves_of_df, RandomSplitter_split_df.
  - unfold FixedSplitter_split.
    do 3 (apply preserves_bind; [frame|intros ?]).
    apply split_on_series_unscratched.
  - unfold StratifySplitter_split.
    destruct (partitioned backend); [frame|].
    apply preserves_bind; [|intros ?; apply split_on_series_unscratched].
    apply preserves_of_df, stratify_labels_preserves, put_rng_df.
  - intros w. reflexivity.
Qed.

(** Whatever the splitter and whether the call returns or raises, [split] and
    [split_dataset] leave the caller's dataset as it was apart from the
    scratch column: the index, the other columns and every cell of theirs are
    unchanged, and no row is added or removed. *)
Theorem split_keeps_callers_data
    (self : Splitter) (global_preprocessing_parameters : gmap string param)
    (backend : Backend) (random_seed : Z) (w : World) :
  unscratched (w_df (split self backend random_seed w).2) = unscratched (w_df w)
  ∧ unscratched
      (w_df (split_dataset global_preprocessing_parameters backend random_seed w).2)
    = unscratched (w_df w).
Proof.
  split; [apply (split_unscratched self backend random_seed w)|].
  revert w.
  change (preserves (λ w, unscratched (w_df w))
            (split_dataset global_preprocessing_parameters backend random_seed)).
  unfold split_dataset.
  apply preserves_bind; [frame|intros df].
  apply preserves_bind.
  { destruct (_ && _); [intros w; reflexivity|frame]. }
  intros _.
  apply preserves_bind; [frame|intros kwargs].
  apply preserves_bind; [frame|intros [s|e]]; simpl.
  - apply split_unscratched.
  - frame.
Qed.
